(** * Slack Connect AI: the messaging client, the refinement client, the
    token scan and the session controller, embedded from the TypeScript
    sources and checked against the specification.

    Strings are sequences of 8-bit code units ([string]); a JavaScript value
    that comes out of [JSON.parse] is a [JsVal]; a computation that can throw
    is a [Completion]. *)

From Stdlib Require Import String Ascii List Bool Arith Lia.
From Stdlib Require Import Decimal DecimalString.
Import ListNotations.
Open Scope string_scope.
Set Warnings "-register-all".

(* ================================================================== *)
(** * JavaScript values, errors and completions *)
(* ================================================================== *)

Module Js.

(** The classes of the exceptions this program meets.  [instanceof
    TypeError] is the only class test in the sources. *)
Inductive ErrClass : Type :=
| PlainError            (* new Error(...) *)
| TypeError
| SyntaxError
| OtherError (name : string).

Record JsError : Type := mkError { cls : ErrClass; message : string }.

Definition instanceofTypeError (e : JsError) : bool :=
  match cls e with TypeError => true | _ => false end.

(** Normal or abrupt completion of a block. *)
Inductive Completion (A : Type) : Type :=
| Return (a : A)
| Throw (e : JsError).
Arguments Return {A} a.
Arguments Throw {A} e.

Definition bind {A B} (c : Completion A) (k : A -> Completion B) : Completion B :=
  match c with
  | Return a => k a
  | Throw e => Throw e
  end.

(** [try { body } catch (error) { handler }] *)
Definition tryCatch {A} (body : Completion A) (handler : JsError -> Completion A)
  : Completion A :=
  match body with
  | Return a => Return a
  | Throw e => handler e
  end.

(** A value decoded from JSON, or [undefined].  A number is carried as its
    [Number::toString] rendering, so that zero is the rendering ["0"]. *)
Inductive JsVal : Type :=
| Undefined
| Null
| Bool (b : bool)
| Num (repr : string)
| Str (s : string)
| Arr (items : list JsVal)
| Obj (fields : list (string * JsVal)).

(** ToBoolean *)
Definition truthy (v : JsVal) : bool :=
  match v with
  | Undefined | Null => false
  | Bool b => b
  | Num r => negb (r =? "0")
  | Str s => negb (s =? "")
  | Arr _ | Obj _ => true
  end.

(** [a || b] *)
Definition or (a b : JsVal) : JsVal := if truthy a then a else b.

Fixpoint lookup {A} (name : string) (fields : list (string * A)) : option A :=
  match fields with
  | [] => None
  | (k, v) :: rest => if k =? name then Some v else lookup name rest
  end.

(** [v.name] for a property name that no prototype defines (the sources
    read [ok], [error], [channels] and [id]): an own field of an object,
    [undefined] on any other value, and a TypeError on [null] and
    [undefined]. *)
Definition get (v : JsVal) (name : string) : Completion JsVal :=
  match v with
  | Obj fields =>
      match lookup name fields with
      | Some x => Return x
      | None => Return Undefined
      end
  | Null =>
      Throw (mkError TypeError ("Cannot read properties of null (reading '" ++ name ++ "')"))
  | Undefined =>
      Throw (mkError TypeError ("Cannot read properties of undefined (reading '" ++ name ++ "')"))
  | _ => Return Undefined
  end.

Fixpoint join (sep : string) (parts : list string) : string :=
  match parts with
  | [] => ""
  | [p] => p
  | p :: rest => p ++ sep ++ join sep rest
  end.

Fixpoint sequence {A} (cs : list (Completion A)) : Completion (list A) :=
  match cs with
  | [] => Return []
  | c :: rest =>
      bind c (fun a => bind (sequence rest) (fun l => Return (a :: l)))
  end.

(** ToString.  An array joins its elements with a comma, [null] and
    [undefined] elements rendering as empty; an object renders through
    [Object.prototype.toString], unless an own field shadows [toString]
    (data is never callable, so ToPrimitive then throws). *)
Fixpoint toString (v : JsVal) : Completion string :=
  match v with
  | Undefined => Return "undefined"
  | Null => Return "null"
  | Bool true => Return "true"
  | Bool false => Return "false"
  | Num r => Return r
  | Str s => Return s
  | Arr items =>
      bind (sequence (map (fun x =>
                             match x with
                             | Undefined | Null => Return ""
                             | _ => toString x
                             end) items))
           (fun parts => Return (join "," parts))
  | Obj fields =>
      match lookup "toString" fields with
      | Some _ => Throw (mkError TypeError "Cannot convert object to primitive value")
      | None => Return "[object Object]"
      end
  end.

(** [new Error(v)] for a [v] other than [undefined] *)
Definition newError (v : JsVal) : Completion JsError :=
  bind (toString v) (fun m => Return (mkError PlainError m)).

Definition is_space (c : ascii) : bool :=
  let n := nat_of_ascii c in
  (((9 <=? n)%nat && (n <=? 13)%nat) || (n =? 32)%nat || (n =? 160)%nat)%bool.

Fixpoint trimStart (s : string) : string :=
  match s with
  | String c rest => if is_space c then trimStart rest else s
  | EmptyString => EmptyString
  end.

Fixpoint trimEnd (s : string) : string :=
  match s with
  | String c rest =>
      let rest' := trimEnd rest in
      if is_space c && (rest' =? "") then "" else String c rest'
  | EmptyString => EmptyString
  end.

(** [String.prototype.trim] on the code units below 256 *)
Definition trim (s : string) : string := trimEnd (trimStart s).

(** Decimal rendering of a natural number *)
Definition decimal (n : nat) : string := NilEmpty.string_of_uint (Nat.to_uint n).

Definition firstChar (s : string) : option ascii :=
  match s with
  | String c _ => Some c
  | EmptyString => None
  end.

Fixpoint lastChar (s : string) : option ascii :=
  match s with
  | EmptyString => None
  | String c EmptyString => Some c
  | String _ rest => lastChar rest
  end.

(** The character, if there is one, is white space. *)
Definition spaceAt (c : option ascii) : bool :=
  match c with
  | Some c => is_space c
  | None => false
  end.

End Js.

Import Js.

Declare Scope js_scope.
Notation "x <- c ;; k" := (Js.bind c (fun x => k))
  (at level 61, c at next level, right associativity) : js_scope.
Open Scope js_scope.

(* ================================================================== *)
(** * SlackService: the messaging client *)
(* ================================================================== *)

Module SlackService.

Definition SLACK_API_BASE : string := "https://slack.com/api".

Record t : Type := mk { token : string; proxyUrl : option string }.

(** [constructor(token, proxyUrl = null)] *)
Definition new (tok : string) (proxy : option string) : t :=
  {| token := trim tok; proxyUrl := proxy |}.

(** [RequestInit], with the body kept as the value given to
    [JSON.stringify] *)
Record RequestInit : Type := mkInit {
  method : option string;
  body : option JsVal;
  headers : list (string * string)
}.

Definition noOptions : RequestInit :=
  {| method := None; body := None; headers := [] |}.

(** What [fetch] is called with. *)
Record FetchCall : Type := mkCall {
  url : string;
  init : RequestInit
}.

(** A response that came back: its status and what [response.json()]
    settles to. *)
Record Response : Type := mkResponse {
  status : nat;
  json : Completion JsVal
}.

(** [response.ok]: the status is in the range 200 to 299. *)
Definition ok (r : Response) : bool :=
  ((200 <=? status r)%nat && (status r <=? 299)%nat)%bool.

(** How a [fetch] call settles.  Without an abort signal (no caller passes
    one) the promise rejects only with a TypeError: the request never
    produced a status. *)
Inductive FetchOutcome : Type :=
| Rejects (reason : string)
| Resolves (response : Response).

Definition Transport : Type := FetchCall -> FetchOutcome.

(** A network that answers every call with status 200 and the given
    decoded payload. *)
Definition answering (payload : JsVal) : Transport :=
  fun _ => Resolves {| status := 200; json := Return payload |}.

Definition targetUrl (endpoint : string) : string :=
  SLACK_API_BASE ++ "/" ++ endpoint.

(** [this.proxyUrl ? `${this.proxyUrl}${targetUrl}` : targetUrl] *)
Definition finalUrl (svc : t) (endpoint : string) : string :=
  match proxyUrl svc with
  | Some p => if negb (p =? "") then p ++ targetUrl endpoint else targetUrl endpoint
  | None => targetUrl endpoint
  end.

(** Object spread: a later field replaces an earlier one of the same
    name. *)
Definition spread (base extra : list (string * string)) : list (string * string) :=
  filter (fun kv => match lookup (fst kv) extra with Some _ => false | None => true end) base
  ++ extra.

Definition requestHeaders (svc : t) (options : RequestInit) : list (string * string) :=
  spread [("Authorization", "Bearer " ++ token svc);
          ("Content-Type", "application/json; charset=utf-8")]
         (headers options).

Definition fetchCall (svc : t) (endpoint : string) (options : RequestInit) : FetchCall :=
  {| url := finalUrl svc endpoint;
     init := {| method := method options;
                body := body options;
                headers := requestHeaders svc options |} |}.

(** The [try] block of [request]. *)
Definition requestAttempt (fetch : Transport) (svc : t) (endpoint : string)
           (options : RequestInit) : Completion JsVal :=
  match fetch (fetchCall svc endpoint options) with
  | Rejects reason => Throw (mkError TypeError reason)
  | Resolves response =>
      if negb (ok response)
      then Throw (mkError PlainError ("HTTP_" ++ decimal (status response)))
      else
        data <- json response ;;
        okFlag <- get data "ok" ;;
        if negb (truthy okFlag)
        then
          err <- get data "error" ;;
          e <- newError (or err (Str "slack_api_error")) ;;
          Throw e
        else Return data
  end.

(** [private async request(endpoint, options = {})] *)
Definition request (fetch : Transport) (svc : t) (endpoint : string)
           (options : RequestInit) : Completion JsVal :=
  tryCatch (requestAttempt fetch svc endpoint options)
           (fun error =>
              if instanceofTypeError error
              then Throw (mkError PlainError "CORS_ERROR")
              else Throw error).

Definition fetchChannels (fetch : Transport) (svc : t) : Completion JsVal :=
  data <- request fetch svc
            "conversations.list?types=public_channel,private_channel&limit=100"
            noOptions ;;
  channels <- get data "channels" ;;
  Return (or channels (Arr [])).

Definition sendMessage (fetch : Transport) (svc : t) (channelId : JsVal) (text : string)
  : Completion JsVal :=
  request fetch svc "chat.postMessage"
          {| method := Some "POST";
             body := Some (Obj [("channel", channelId); ("text", Str text)]);
             headers := [] |}.

Definition testConnection (fetch : Transport) (svc : t) : Completion JsVal :=
  request fetch svc "auth.test" noOptions.

End SlackService.

(* ================================================================== *)
(** * GeminiService: the refinement client (two copies in the sources) *)
(* ================================================================== *)

Module Gemini.

Inductive Tone : Type := professional | friendly | concise.

Definition toneText (t : Tone) : string :=
  match t with
  | professional => "professional"
  | friendly => "friendly"
  | concise => "concise"
  end.

(** The global [process] of the page. *)
Inductive ProcessGlobal : Type :=
| NoProcess                                     (* typeof process === 'undefined' *)
| ProcessWithoutEnv                             (* process.env is undefined *)
| ProcessEnv (vars : list (string * JsVal)).

Record Env : Type := mkEnv {
  process : ProcessGlobal;
  windowEnv : JsVal                             (* (window as any).env *)
}.

(** The argument of [ai.models.generateContent] together with the key the
    client was built with. *)
Record GenerateCall : Type := mkGen {
  apiKey : JsVal;
  model : string;
  contents : string
}.

(** How a generation call settles; [text] is [response.text]. *)
Inductive GenOutcome : Type :=
| GenRejects (e : JsError)
| GenResolves (text : option string).

Definition Backend : Type := GenerateCall -> GenOutcome.

Inductive Effect : Type :=
| ConsoleWarn (msg : string)
| ConsoleError (msg : string) (e : JsError)
| NetworkCall (call : GenerateCall).

(** A computation that logs, calls the network and completes. *)
Definition M (A : Type) : Type := (list Effect * Completion A)%type.

Definition ret {A} (a : A) : M A := ([], Return a).
Definition raise {A} (e : JsError) : M A := ([], Throw e).
Definition emit (ef : Effect) : M unit := ([ef], Return tt).

Definition mbind {A B} (m : M A) (k : A -> M B) : M B :=
  match m with
  | (log, Return a) => let (log', r) := k a in ((log ++ log')%list, r)
  | (log, Throw e) => (log, Throw e)
  end.

Definition mtry {A} (body : M A) (handler : JsError -> M A) : M A :=
  match body with
  | (log, Return a) => (log, Return a)
  | (log, Throw e) => let (log', r) := handler e in ((log ++ log')%list, r)
  end.

Definition generateContent (ai : Backend) (call : GenerateCall) : M (option string) :=
  match ai call with
  | GenRejects e => ([NetworkCall call], Throw e)
  | GenResolves text => ([NetworkCall call], Return text)
  end.

(** [response.text || message] *)
Definition textOr (text : option string) (message : string) : string :=
  match text with
  | Some t => if negb (t =? "") then t else message
  | None => message
  end.

Definition nl : string := String (ascii_of_nat 10) "".
Definition dquote : string := String (ascii_of_nat 34) "".

(** The template literal, whose continuation lines carry the indentation
    [pad] of the source file. *)
Definition prompt (pad : string) (tone : Tone) (message : string) : string :=
  "You are an expert communicator. Refine the following Slack message to be more "
    ++ toneText tone ++ ". " ++ nl
    ++ pad ++ "Maintain the original intent but improve clarity, grammar, and impact." ++ nl
    ++ pad ++ nl
    ++ pad ++ "Message: " ++ dquote ++ message ++ dquote ++ nl
    ++ pad ++ nl
    ++ pad ++ "Output only the refined text without any quotes or additional comments.".

(** [tone = 'professional'] *)
Definition toneOrDefault (tone : option Tone) : Tone :=
  match tone with Some t => t | None => professional end.

Definition MODEL : string := "gemini-3-flash-preview".

(** How many times a log shows the network being called. *)
Fixpoint networkCalls (log : list Effect) : nat :=
  match log with
  | [] => 0
  | NetworkCall _ :: rest => S (networkCalls rest)
  | _ :: rest => networkCalls rest
  end.

End Gemini.

(** The copy that builds its client in the constructor (part_000). *)
Module GeminiService_part000.
Import Gemini.

Record t : Type := mk { ai_apiKey : JsVal }.

(** [constructor()]: [new GoogleGenAI({ apiKey: process.env.API_KEY || '' })] *)
Definition new (env : Env) : Completion t :=
  match process env with
  | NoProcess => Throw (mkError (OtherError "ReferenceError") "process is not defined")
  | ProcessWithoutEnv =>
      Throw (mkError TypeError "Cannot read properties of undefined (reading 'API_KEY')")
  | ProcessEnv vars =>
      key <- get (Obj vars) "API_KEY" ;;
      Return {| ai_apiKey := or key (Str "") |}
  end.

(** The argument of [this.ai.models.generateContent]. *)
Definition call (this : t) (message : string) (tone : Tone) : GenerateCall :=
  {| apiKey := ai_apiKey this;
     model := MODEL;
     contents := prompt "      " tone message |}.

Definition refineMessage (this : t) (ai : Backend) (message : string) (tone : option Tone)
  : M string :=
  let tone := toneOrDefault tone in
  mbind (generateContent ai (call this message tone))
        (fun text => ret (textOr text message)).

End GeminiService_part000.

(** The copy that reads the key and builds its client per request
    (part_001). *)
Module GeminiService_part001.
Import Gemini.

(** [typeof process !== 'undefined' && process.env ? process.env
     : (window as any).env || {}] *)
Definition safeEnv (env : Env) : JsVal :=
  match process env with
  | ProcessEnv vars => Obj vars
  | _ => or (windowEnv env) (Obj [])
  end.

(** The argument of [ai.models.generateContent], with the key of the
    client it is called on. *)
Definition call (key : JsVal) (message : string) (tone : Tone) : GenerateCall :=
  {| apiKey := key;
     model := MODEL;
     contents := prompt "        " tone message |}.

Definition refineMessage (env : Env) (ai : Backend) (message : string) (tone : option Tone)
  : M string :=
  let tone := toneOrDefault tone in
  match get (safeEnv env) "API_KEY" with
  | Throw e => raise e
  | Return apiKey =>
      if negb (truthy apiKey)
      then
        mbind (emit (ConsoleWarn "Gemini Service: API_KEY is missing. Refinement disabled."))
              (fun _ => ret message)
      else
        mtry (mbind (generateContent ai (call apiKey message tone))
                    (fun text => ret (textOr text message)))
             (fun error =>
                mbind (emit (ConsoleError "Gemini refinement failed:" error))
                      (fun _ => ret message))
  end.

End GeminiService_part001.

(* ================================================================== *)
(** * localStorage: the durable key-value store *)
(* ================================================================== *)

Module Storage.

(** The entries in iteration order ([key(0)], [key(1)], ...). *)
Definition t : Type := list (string * string).

Definition length (st : t) : nat := List.length st.

Definition key (st : t) (i : nat) : option string :=
  option_map fst (nth_error st i).

Definition getItem (st : t) (k : string) : option string := lookup k st.

(** The entries once the store has taken a write. *)
Fixpoint put (st : t) (k v : string) : t :=
  match st with
  | [] => [(k, v)]
  | (k', v') :: rest =>
      if k' =? k then (k, v) :: rest else (k', v') :: put rest k v
  end.

(** How the store answers a write of [v] under [k]: it takes it ([None]),
    or it refuses with an exception (a full quota, a store the user has
    disabled). *)
Definition Answer : Type := t -> string -> string -> option JsError.

(** [localStorage.setItem(k, v)] *)
Definition setItem (answer : Answer) (st : t) (k v : string) : Completion t :=
  match answer st k v with
  | None => Return (put st k v)
  | Some refusal => Throw refusal
  end.

(** The code units a store holds, keys and values together. *)
Fixpoint size (st : t) : nat :=
  match st with
  | [] => 0
  | (k, v) :: rest => String.length k + String.length v + size rest
  end.

(** A store that takes a write as long as it then holds no more than
    [limit] code units, and refuses it with QuotaExceededError otherwise. *)
Definition quota (limit : nat) : Answer :=
  fun st k v =>
    if (size (put st k v) <=? limit)%nat then None
    else Some (mkError (OtherError "QuotaExceededError") "The quota has been exceeded.").

Definition removeItem (st : t) (k : string) : t :=
  filter (fun kv => negb (fst kv =? k)) st.

(** A store holds one entry per key. *)
Definition wf (st : t) : Prop := NoDup (map fst st).

End Storage.

(* ================================================================== *)
(** * The token scan (one routine per copy of App.tsx) *)
(* ================================================================== *)

Module TokenScan.

Definition between (lo hi : nat) (c : ascii) : bool :=
  let n := nat_of_ascii c in ((lo <=? n)%nat && (n <=? hi)%nat)%bool.

(** The class [a-zA-Z0-9-] *)
Definition is_token_char (c : ascii) : bool :=
  (between 97 122 c || between 65 90 c || between 48 57 c || Ascii.eqb c "-")%bool.

(** The class [bap] *)
Definition is_kind (c : ascii) : bool :=
  (Ascii.eqb c "b" || Ascii.eqb c "a" || Ascii.eqb c "p")%bool.

Fixpoint takeWhile (p : ascii -> bool) (s : string) : string :=
  match s with
  | String c rest => if p c then String c (takeWhile p rest) else ""
  | EmptyString => ""
  end.

(** The pattern [/xox[bap]-[a-zA-Z0-9-]+/] tried at the start of [s]: the
    greedy [+] ends the pattern, so it takes the longest run. *)
Definition matchHere (s : string) : option string :=
  match s with
  | String c1 (String c2 (String c3 (String k (String c5 rest)))) =>
      if (Ascii.eqb c1 "x" && Ascii.eqb c2 "o" && Ascii.eqb c3 "x"
          && is_kind k && Ascii.eqb c5 "-")%bool
      then match takeWhile is_token_char rest with
           | EmptyString => None
           | run => Some (String "x" (String "o" (String "x" (String k (String "-" run)))))
           end
      else None
  | _ => None
  end.

(** [val.match(slackPattern)], giving [match[0]]: the first index at which
    the pattern matches wins. *)
Fixpoint regexMatch (s : string) : option string :=
  match matchHere s with
  | Some m => Some m
  | None =>
      match s with
      | String _ rest => regexMatch rest
      | EmptyString => None
      end
  end.

Definition Found : Type := (string * string)%type.       (* {key, value} *)

(** One turn of the loop of [scanForTokens] (first copy). *)
Definition scanForTokensAt (st : Storage.t) (token : string) (i : nat) : list Found :=
  match Storage.key st i with
  | None => []
  | Some key =>
      if key =? "" then [] else
      match Storage.getItem st key with
      | None => []
      | Some val =>
          if val =? "" then [] else
          match regexMatch val with
          | Some m => if negb (m =? token) then [(key, m)] else []
          | None => []
          end
      end
  end.

Definition scanForTokens (st : Storage.t) (token : string) : list Found :=
  flat_map (scanForTokensAt st token) (seq 0 (Storage.length st)).

(** One turn of the loop of [scanLocalStorage] (second copy). *)
Definition scanLocalStorageAt (st : Storage.t) (token : string) (i : nat) : list Found :=
  match Storage.key st i with
  | None => []
  | Some key =>
      if key =? "" then [] else
      match Storage.getItem st key with
      | None => []
      | Some val =>
          if (negb (val =? "")
              && (prefix "xoxb-" val || prefix "xoxp-" val)
              && negb (val =? token))%bool
          then [(key, val)] else []
      end
  end.

Definition scanLocalStorage (st : Storage.t) (token : string) : list Found :=
  flat_map (scanLocalStorageAt st token) (seq 0 (Storage.length st)).

End TokenScan.

(* ================================================================== *)
(** * App: the session controller *)
(* ================================================================== *)

Module App.
Import Gemini.

Definition DEFAULT_PROXY : string := "https://corsproxy.io/?".

Inductive AppStatus : Type := IDLE | LOADING | SUCCESS | ERROR.

(** ['AUTH' | 'CORS' | 'NETWORK'], the last declared by the second copy
    only and never assigned. *)
Inductive ErrorType : Type := AUTH | CORS | NETWORK.

(** Which copy of App.tsx: the first (lines 1 to 591, with
    [scanForTokens]) or the second (lines 593 to 1191, with
    [scanLocalStorage]). *)
Inductive Edition : Type := First | Second.

(** A handler suspended at its [await], with what it captured. *)
Inductive Pending : Type :=
| Verifying (cleanToken : string) (activeProxy : bool)
| Fetching (svc : SlackService.t)
| Sending (svc : SlackService.t) (channelId : JsVal) (text : string)
| Refining (message : string) (tone : Tone).

(** The React state of the component, the durable store behind it, and
    the run time around it: [now] counts milliseconds, [timers] holds the
    due times of the pending [setTimeout] callbacks (all of them clear the
    toast), [inflight] the handlers suspended at an [await]. *)
Record State : Type := mkState {
  localStorage : Storage.t;
  token : string;
  useProxy : bool;
  inputToken : string;
  channels : JsVal;
  selectedChannel : option JsVal;
  message : string;
  status : AppStatus;
  errorMessage : option string;
  errorType : option ErrorType;
  isVerifying : bool;
  showSettings : bool;
  isRefining : bool;
  successToast : bool;
  discoveredTokens : list TokenScan.Found;
  now : nat;
  timers : list nat;
  inflight : list Pending
}.

Definition withStorage (v : Storage.t) (s : State) : State :=
  {| localStorage := v;
     token := token s;
     useProxy := useProxy s;
     inputToken := inputToken s;
     channels := channels s;
     selectedChannel := selectedChannel s;
     message := message s;
     status := status s;
     errorMessage := errorMessage s;
     errorType := errorType s;
     isVerifying := isVerifying s;
     showSettings := showSettings s;
     isRefining := isRefining s;
     successToast := successToast s;
     discoveredTokens := discoveredTokens s;
     now := now s;
     timers := timers s;
     inflight := inflight s |}.

Definition setToken (v : string) (s : State) : State :=
  {| localStorage := localStorage s;
     token := v;
     useProxy := useProxy s;
     inputToken := inputToken s;
     channels := channels s;
     selectedChannel := selectedChannel s;
     message := message s;
     status := status s;
     errorMessage := errorMessage s;
     errorType := errorType s;
     isVerifying := isVerifying s;
     showSettings := showSettings s;
     isRefining := isRefining s;
     successToast := successToast s;
     discoveredTokens := discoveredTokens s;
     now := now s;
     timers := timers s;
     inflight := inflight s |}.

Definition setUseProxy (v : bool) (s : State) : State :=
  {| localStorage := localStorage s;
     token := token s;
     useProxy := v;
     inputToken := inputToken s;
     channels := channels s;
     selectedChannel := selectedChannel s;
     message := message s;
     status := status s;
     errorMessage := errorMessage s;
     errorType := errorType s;
     isVerifying := isVerifying s;
     showSettings := showSettings s;
     isRefining := isRefining s;
     successToast := successToast s;
     discoveredTokens := discoveredTokens s;
     now := now s;
     timers := timers s;
     inflight := inflight s |}.

Definition setInputToken (v : string) (s : State) : State :=
  {| localStorage := localStorage s;
     token := token s;
     useProxy := useProxy s;
     inputToken := v;
     channels := channels s;
     selectedChannel := selectedChannel s;
     message := message s;
     status := status s;
     errorMessage := errorMessage s;
     errorType := errorType s;
     isVerifying := isVerifying s;
     showSettings := showSettings s;
     isRefining := isRefining s;
     successToast := successToast s;
     discoveredTokens := discoveredTokens s;
     now := now s;
     timers := timers s;
     inflight := inflight s |}.

Definition setChannels (v : JsVal) (s : State) : State :=
  {| localStorage := localStorage s;
     token := token s;
     useProxy := useProxy s;
     inputToken := inputToken s;
     channels := v;
     selectedChannel := selectedChannel s;
     message := message s;
     status := status s;
     errorMessage := errorMessage s;
     errorType := errorType s;
     isVerifying := isVerifying s;
     showSettings := showSettings s;
     isRefining := isRefining s;
     successToast := successToast s;
     discoveredTokens := discoveredTokens s;
     now := now s;
     timers := timers s;
     inflight := inflight s |}.

Definition setSelectedChannel (v : option JsVal) (s : State) : State :=
  {| localStorage := localStorage s;
     token := token s;
     useProxy := useProxy s;
     inputToken := inputToken s;
     channels := channels s;
     selectedChannel := v;
     message := message s;
     status := status s;
     errorMessage := errorMessage s;
     errorType := errorType s;
     isVerifying := isVerifying s;
     showSettings := showSettings s;
     isRefining := isRefining s;
     successToast := successToast s;
     discoveredTokens := discoveredTokens s;
     now := now s;
     timers := timers s;
     inflight := inflight s |}.

Definition setMessage (v : string) (s : State) : State :=
  {| localStorage := localStorage s;
     token := token s;
     useProxy := useProxy s;
     inputToken := inputToken s;
     channels := channels s;
     selectedChannel := selectedChannel s;
     message := v;
     status := status s;
     errorMessage := errorMessage s;
     errorType := errorType s;
     isVerifying := isVerifying s;
     showSettings := showSettings s;
     isRefining := isRefining s;
     successToast := successToast s;
     discoveredTokens := discoveredTokens s;
     now := now s;
     timers := timers s;
     inflight := inflight s |}.

Definition setStatus (v : AppStatus) (s : State) : State :=
  {| localStorage := localStorage s;
     token := token s;
     useProxy := useProxy s;
     inputToken := inputToken s;
     channels := channels s;
     selectedChannel := selectedChannel s;
     message := message s;
     status := v;
     errorMessage := errorMessage s;
     errorType := errorType s;
     isVerifying := isVerifying s;
     showSettings := showSettings s;
     isRefining := isRefining s;
     successToast := successToast s;
     discoveredTokens := discoveredTokens s;
     now := now s;
     timers := timers s;
     inflight := inflight s |}.

Definition setErrorMessage (v : option string) (s : State) : State :=
  {| localStorage := localStorage s;
     token := token s;
     useProxy := useProxy s;
     inputToken := inputToken s;
     channels := channels s;
     selectedChannel := selectedChannel s;
     message := message s;
     status := status s;
     errorMessage := v;
     errorType := errorType s;
     isVerifying := isVerifying s;
     showSettings := showSettings s;
     isRefining := isRefining s;
     successToast := successToast s;
     discoveredTokens := discoveredTokens s;
     now := now s;
     timers := timers s;
     inflight := inflight s |}.

Definition setErrorType (v : option ErrorType) (s : State) : State :=
  {| localStorage := localStorage s;
     token := token s;
     useProxy := useProxy s;
     inputToken := inputToken s;
     channels := channels s;
     selectedChannel := selectedChannel s;
     message := message s;
     status := status s;
     errorMessage := errorMessage s;
     errorType := v;
     isVerifying := isVerifying s;
     showSettings := showSettings s;
     isRefining := isRefining s;
     successToast := successToast s;
     discoveredTokens := discoveredTokens s;
     now := now s;
     timers := timers s;
     inflight := inflight s |}.

Definition setIsVerifying (v : bool) (s : State) : State :=
  {| localStorage := localStorage s;
     token := token s;
     useProxy := useProxy s;
     inputToken := inputToken s;
     channels := channels s;
     selectedChannel := selectedChannel s;
     message := message s;
     status := status s;
     errorMessage := errorMessage s;
     errorType := errorType s;
     isVerifying := v;
     showSettings := showSettings s;
     isRefining := isRefining s;
     successToast := successToast s;
     discoveredTokens := discoveredTokens s;
     now := now s;
     timers := timers s;
     inflight := inflight s |}.

Definition setShowSettings (v : bool) (s : State) : State :=
  {| localStorage := localStorage s;
     token := token s;
     useProxy := useProxy s;
     inputToken := inputToken s;
     channels := channels s;
     selectedChannel := selectedChannel s;
     message := message s;
     status := status s;
     errorMessage := errorMessage s;
     errorType := errorType s;
     isVerifying := isVerifying s;
     showSettings := v;
     isRefining := isRefining s;
     successToast := successToast s;
     discoveredTokens := discoveredTokens s;
     now := now s;
     timers := timers s;
     inflight := inflight s |}.

Definition setIsRefining (v : bool) (s : State) : State :=
  {| localStorage := localStorage s;
     token := token s;
     useProxy := useProxy s;
     inputToken := inputToken s;
     channels := channels s;
     selectedChannel := selectedChannel s;
     message := message s;
     status := status s;
     errorMessage := errorMessage s;
     errorType := errorType s;
     isVerifying := isVerifying s;
     showSettings := showSettings s;
     isRefining := v;
     successToast := successToast s;
     discoveredTokens := discoveredTokens s;
     now := now s;
     timers := timers s;
     inflight := inflight s |}.

Definition setSuccessToast (v : bool) (s : State) : State :=
  {| localStorage := localStorage s;
     token := token s;
     useProxy := useProxy s;
     inputToken := inputToken s;
     channels := channels s;
     selectedChannel := selectedChannel s;
     message := message s;
     status := status s;
     errorMessage := errorMessage s;
     errorType := errorType s;
     isVerifying := isVerifying s;
     showSettings := showSettings s;
     isRefining := isRefining s;
     successToast := v;
     discoveredTokens := discoveredTokens s;
     now := now s;
     timers := timers s;
     inflight := inflight s |}.

Definition setDiscoveredTokens (v : list TokenScan.Found) (s : State) : State :=
  {| localStorage := localStorage s;
     token := token s;
     useProxy := useProxy s;
     inputToken := inputToken s;
     channels := channels s;
     selectedChannel := selectedChannel s;
     message := message s;
     status := status s;
     errorMessage := errorMessage s;
     errorType := errorType s;
     isVerifying := isVerifying s;
     showSettings := showSettings s;
     isRefining := isRefining s;
     successToast := successToast s;
     discoveredTokens := v;
     now := now s;
     timers := timers s;
     inflight := inflight s |}.

Definition withNow (v : nat) (s : State) : State :=
  {| localStorage := localStorage s;
     token := token s;
     useProxy := useProxy s;
     inputToken := inputToken s;
     channels := channels s;
     selectedChannel := selectedChannel s;
     message := message s;
     status := status s;
     errorMessage := errorMessage s;
     errorType := errorType s;
     isVerifying := isVerifying s;
     showSettings := showSettings s;
     isRefining := isRefining s;
     successToast := successToast s;
     discoveredTokens := discoveredTokens s;
     now := v;
     timers := timers s;
     inflight := inflight s |}.

Definition withTimers (v : list nat) (s : State) : State :=
  {| localStorage := localStorage s;
     token := token s;
     useProxy := useProxy s;
     inputToken := inputToken s;
     channels := channels s;
     selectedChannel := selectedChannel s;
     message := message s;
     status := status s;
     errorMessage := errorMessage s;
     errorType := errorType s;
     isVerifying := isVerifying s;
     showSettings := showSettings s;
     isRefining := isRefining s;
     successToast := successToast s;
     discoveredTokens := discoveredTokens s;
     now := now s;
     timers := v;
     inflight := inflight s |}.

Definition withInflight (v : list Pending) (s : State) : State :=
  {| localStorage := localStorage s;
     token := token s;
     useProxy := useProxy s;
     inputToken := inputToken s;
     channels := channels s;
     selectedChannel := selectedChannel s;
     message := message s;
     status := status s;
     errorMessage := errorMessage s;
     errorType := errorType s;
     isVerifying := isVerifying s;
     showSettings := showSettings s;
     isRefining := isRefining s;
     successToast := successToast s;
     discoveredTokens := discoveredTokens s;
     now := now s;
     timers := timers s;
     inflight := v |}.

Definition boolToString (b : bool) : string := if b then "true" else "false".

(** What the page is connected to when a suspended handler resumes: the
    network behind [fetch], the [refineMessage] of the GeminiService copy
    that is linked in, and how the store answers a write. *)
Record World : Type := mkWorld {
  fetch : SlackService.Transport;
  refineMessage : string -> option Tone -> Completion string;
  write : Storage.Answer
}.

(** The store of this world takes every write. *)
Definition takesWrites (w : World) : Prop :=
  forall st k v, write w st k v = None.

(** [slackServiceRef.current], which an effect keeps equal to
    [token ? new SlackService(token, useProxy ? DEFAULT_PROXY : null) : null]. *)
Definition service (s : State) : option SlackService.t :=
  if negb (token s =? "")
  then Some (SlackService.new (token s) (if useProxy s then Some DEFAULT_PROXY else None))
  else None.

Definition suspend (p : Pending) (s : State) : State :=
  withInflight (inflight s ++ [p]) s.

(** The outcome of a call of the messaging client as its callers tell
    it apart: every [catch] block tests [err.message === 'CORS_ERROR']. *)
Inductive ConnectionOutcome : Type :=
| Success (payload : JsVal)
| AuthError (msg : string)
| TransportBlocked.

Definition classify (c : Completion JsVal) : ConnectionOutcome :=
  match c with
  | Return payload => Success payload
  | Throw err =>
      if Js.message err =? "CORS_ERROR" then TransportBlocked
      else AuthError (Js.message err)
  end.

(** ** fetchChannels *)

Definition fetchChannels (s : State) : State :=
  match service s with
  | None => s
  | Some svc => suspend (Fetching svc) (setStatus LOADING s)
  end.

Definition corsTextFetch (ed : Edition) : string :=
  match ed with
  | First =>
      "Connection blocked by Browser Security (CORS). This is common for Slack on the web."
  | Second =>
      "Request blocked by browser security (CORS). Enable the proxy below to bypass."
  end.

Definition fetchChannelsResumed (ed : Edition) (w : World) (svc : SlackService.t)
           (s : State) : State :=
  match SlackService.fetchChannels (fetch w) svc with
  | Return fetchedChannels =>
      let s := setChannels fetchedChannels s in
      let s := setStatus SUCCESS s in
      let s := setErrorMessage None s in
      setErrorType None s
  | Throw err =>
      let s :=
        if Js.message err =? "CORS_ERROR"
        then setErrorMessage (Some (corsTextFetch ed)) (setErrorType (Some CORS) s)
        else
          let shown := if negb (Js.message err =? "")
                       then Js.message err else "Failed to fetch channels." in
          setErrorType (Some AUTH) (setErrorMessage (Some shown) s)
      in
      setStatus ERROR s
  end.

(** ** handleConnect *)

Definition handleConnect (ed : Edition) (targetToken : string) (forceProxy : option bool)
           (s : State) : State :=
  let cleanToken := trim targetToken in
  let activeProxy := match forceProxy with Some b => b | None => useProxy s end in
  if cleanToken =? ""
  then match ed with
       | First => s
       | Second => setErrorMessage (Some "Token field is empty.") s
       end
  else
    let s := setIsVerifying true s in
    let s := setErrorMessage None s in
    let s := setErrorType None s in
    suspend (Verifying cleanToken activeProxy) s.

Definition corsTextConnect (ed : Edition) : string :=
  match ed with
  | First =>
      "CORS Blocked: The browser restricted the request. Enable the Proxy to continue."
  | Second =>
      "Browser blocked the request. Try clicking " ++ dquote ++ "Fix with Proxy"
        ++ dquote ++ " below."
  end.

Definition authTextConnect (ed : Edition) (msg : string) : string :=
  match ed with
  | First => "Slack API Error: " ++ msg
  | Second => "Slack Error: " ++ msg
  end.

(** The [catch] block of [handleConnect]. *)
Definition connectFailed (ed : Edition) (err : JsError) (s : State) : State :=
  if Js.message err =? "CORS_ERROR"
  then setErrorMessage (Some (corsTextConnect ed)) (setErrorType (Some CORS) s)
  else setErrorType (Some AUTH)
         (setErrorMessage (Some (authTextConnect ed (Js.message err))) s).

(** [handleConnect] from its [await] on: the two writes are in the [try]
    block, so a write the store refuses lands in the [catch] block, after
    whatever was written before it. *)
Definition handleConnectResumed (ed : Edition) (w : World) (cleanToken : string)
           (activeProxy : bool) (s : State) : State :=
  let testService :=
    SlackService.new cleanToken (if activeProxy then Some DEFAULT_PROXY else None) in
  let s :=
    match SlackService.testConnection (fetch w) testService with
    | Throw err => connectFailed ed err s
    | Return _ =>
        match Storage.setItem (write w) (localStorage s) "slack_token" cleanToken with
        | Throw err => connectFailed ed err s
        | Return stored =>
            let s := withStorage stored s in
            match Storage.setItem (write w) (localStorage s) "slack_use_proxy"
                                  (boolToString activeProxy) with
            | Throw err => connectFailed ed err s
            | Return stored =>
                let s := withStorage stored s in
                let s := setToken cleanToken s in
                let s := setUseProxy activeProxy s in
                let s := match ed with First => setInputToken cleanToken s | Second => s end in
                let s := setShowSettings false s in
                setErrorMessage None s
            end
        end
    end
  in
  setIsVerifying false s.

(** ** handleLogout *)

Definition handleLogout (ed : Edition) (s : State) : State :=
  let s := withStorage (Storage.removeItem (localStorage s) "slack_token") s in
  let s := withStorage (Storage.removeItem (localStorage s) "slack_use_proxy") s in
  let s := setToken "" s in
  let s := setInputToken "" s in
  let s := setChannels (Arr []) s in
  let s := setSelectedChannel None s in
  let s := setShowSettings false s in
  match ed with
  | First => s
  | Second => setErrorType None (setErrorMessage None s)
  end.

(** ** handleSendMessage *)

Definition TOAST_MS : nat := 3000.

(** The [catch] block of [handleSendMessage]. *)
Definition sendFailed (err : JsError) (s : State) : State :=
  let shown := if Js.message err =? "CORS_ERROR"
               then "Send blocked by CORS. Enable Proxy in settings."
               else Js.message err in
  setStatus ERROR (setErrorMessage (Some shown) s).

Definition handleSendMessage (s : State) : State :=
  match selectedChannel s, service s with
  | Some channel, Some svc =>
      if (truthy channel && negb (message s =? ""))%bool
      then
        let s := setStatus LOADING s in
        match get channel "id" with
        | Return id => suspend (Sending svc id (message s)) s
        | Throw err => sendFailed err s
        end
      else s
  | _, _ => s
  end.

Definition handleSendMessageResumed (ed : Edition) (w : World) (svc : SlackService.t)
           (channelId : JsVal) (text : string) (s : State) : State :=
  match SlackService.sendMessage (fetch w) svc channelId text with
  | Return _ =>
      let s := setMessage "" s in
      let s := setSuccessToast true s in
      let s := withTimers (timers s ++ [now s + TOAST_MS]) s in
      let s := setStatus SUCCESS s in
      match ed with
      | First => s
      | Second => setErrorMessage None s
      end
  | Throw err => sendFailed err s
  end.

(** ** refineWithAI *)

Definition refineWithAI (tone : Tone) (s : State) : State :=
  if message s =? "" then s
  else suspend (Refining (message s) tone) (setIsRefining true s).

Definition refineWithAIResumed (w : World) (msg : string) (tone : Tone) (s : State)
  : State :=
  let s :=
    match refineMessage w msg (Some tone) with
    | Return refined => setMessage refined s
    | Throw _ => s                                  (* console.error *)
    end
  in
  setIsRefining false s.

(** ** Effects *)

Definition scan (ed : Edition) (s : State) : list TokenScan.Found :=
  match ed with
  | First => TokenScan.scanForTokens (localStorage s) (token s)
  | Second => TokenScan.scanLocalStorage (localStorage s) (token s)
  end.

(** The effects that run after a render, in declaration order; [before]
    is the previous render ([None] on mount), whose [token], [useProxy]
    and [showSettings] are the dependencies compared. *)
Definition afterRender (ed : Edition) (before : option State) (s : State) : State :=
  let changed {A} (eqb : A -> A -> bool) (f : State -> A) : bool :=
    match before with
    | None => true
    | Some b => negb (eqb (f b) (f s))
    end in
  let tokenChanged := changed String.eqb token in
  let proxyChanged := changed Bool.eqb useProxy in
  let settingsChanged := changed Bool.eqb showSettings in
  let s1 :=
    match ed with
    | Second => if (tokenChanged || proxyChanged)%bool then setInputToken (token s) s else s
    | First => s
    end in
  let s2 := if tokenChanged then setDiscoveredTokens (scan ed s) s1 else s1 in
  if ((tokenChanged || settingsChanged) && negb (token s =? "") && negb (showSettings s))%bool
  then fetchChannels s2
  else s2.

(** ** Mounting the component *)

Definition initial (st : Storage.t) : State :=
  let token :=
    match Storage.getItem st "slack_token" with
    | Some v => if negb (v =? "") then v else ""
    | None => ""
    end in
  {| localStorage := st;
     token := token;
     useProxy := match Storage.getItem st "slack_use_proxy" with
                 | Some v => v =? "true"
                 | None => false
                 end;
     inputToken := token;
     channels := Arr [];
     selectedChannel := None;
     message := "";
     status := IDLE;
     errorMessage := None;
     errorType := None;
     isVerifying := false;
     showSettings := false;
     isRefining := false;
     successToast := false;
     discoveredTokens := [];
     now := 0;
     timers := [];
     inflight := [] |}.

Definition mount (ed : Edition) (st : Storage.t) : State :=
  afterRender ed None (initial st).

(** ** Events *)

Inductive Event : Type :=
| TypeToken (text : string)                    (* onChange of the token field *)
| TypeMessage (text : string)                  (* onChange of the message field *)
| PickChannel (i : nat)                        (* click on the i-th channel *)
| OpenSettings
| CloseSettings
| ToggleProxy                                  (* setUseProxy(!useProxy) *)
| DismissError                                 (* second copy only *)
| Connect (targetToken : string) (forceProxy : option bool)
| Logout
| Refresh
| Send
| Refine (tone : Tone)
| Rescan                                       (* the 5000 ms interval, first copy only *)
| Resume (i : nat) (w : World)                 (* the i-th suspended handler resumes *)
| Elapse (ms : nat)
| Timeout (i : nat).                           (* the i-th timer fires *)

Fixpoint removeNth {A} (i : nat) (l : list A) : list A :=
  match l, i with
  | [], _ => []
  | _ :: rest, O => rest
  | x :: rest, S j => x :: removeNth j rest
  end.

Definition resume (ed : Edition) (w : World) (p : Pending) (s : State) : State :=
  match p with
  | Verifying cleanToken activeProxy => handleConnectResumed ed w cleanToken activeProxy s
  | Fetching svc => fetchChannelsResumed ed w svc s
  | Sending svc channelId text => handleSendMessageResumed ed w svc channelId text s
  | Refining msg tone => refineWithAIResumed w msg tone s
  end.

(** The handler an event runs, or [None] when the event cannot happen.
    The page offers an event in fewer states than this (a button is
    disabled, a view is not shown), so every run of the page is a run of
    this loop.  Handlers resume in any order, and a timer fires no earlier
    than it is due. *)
Definition handle (ed : Edition) (ev : Event) (s : State) : option State :=
  match ev with
  | TypeToken text => Some (setInputToken text s)
  | TypeMessage text => Some (setMessage text s)
  | PickChannel i =>
      match channels s with
      | Arr items =>
          match nth_error items i with
          | Some channel => Some (setSelectedChannel (Some channel) s)
          | None => None
          end
      | _ => None
      end
  | OpenSettings => Some (setShowSettings true s)
  | CloseSettings => Some (setShowSettings false s)
  | ToggleProxy => Some (setUseProxy (negb (useProxy s)) s)
  | DismissError =>
      match ed with
      | First => None
      | Second => Some (setErrorType None (setErrorMessage None s))
      end
  | Connect targetToken forceProxy => Some (handleConnect ed targetToken forceProxy s)
  | Logout => Some (handleLogout ed s)
  | Refresh => Some (fetchChannels s)
  | Send => Some (handleSendMessage s)
  | Refine tone => Some (refineWithAI tone s)
  | Rescan =>
      match ed with
      | First => Some (setDiscoveredTokens (scan ed s) s)
      | Second => None
      end
  | Resume i w =>
      match nth_error (inflight s) i with
      | Some p => Some (resume ed w p (withInflight (removeNth i (inflight s)) s))
      | None => None
      end
  | Elapse ms => Some (withNow (now s + ms) s)
  | Timeout i =>
      match nth_error (timers s) i with
      | Some due =>
          if (due <=? now s)%nat
          then Some (setSuccessToast false (withTimers (removeNth i (timers s)) s))
          else None
      | None => None
      end
  end.

(** One turn of the event loop: the handler, then the effects of the
    render it causes. *)
Definition step (ed : Edition) (s : State) (ev : Event) : option State :=
  option_map (afterRender ed (Some s)) (handle ed ev s).

Fixpoint run (ed : Edition) (s : State) (evs : list Event) : option State :=
  match evs with
  | [] => Some s
  | ev :: rest =>
      match step ed s ev with
      | Some s' => run ed s' rest
      | None => None
      end
  end.

(** ** The send window *)

(** The toast raised by a send that completed at [since] is held: time has
    not run backwards, no pending timer is due before [since + TOAST_MS],
    and until then the toast is shown. *)
Definition toastHeld (since : nat) (s : State) : Prop :=
  since <= now s
  /\ Forall (fun due => since + TOAST_MS <= due) (timers s)
  /\ (now s < since + TOAST_MS -> successToast s = true).

(** ** A mocked upstream, for scenarios: every call is answered with
    status 200, [ok: true] and two channels. *)
Definition twoChannels : JsVal :=
  Arr [Obj [("id", Str "C01"); ("name", Str "general"); ("is_private", Bool false)];
       Obj [("id", Str "C02"); ("name", Str "ops"); ("is_private", Bool true)]].

Definition mocked : World :=
  {| fetch := SlackService.answering (Obj [("ok", Bool true); ("channels", twoChannels)]);
     refineMessage := fun message _ => Return message;
     write := fun _ _ _ => None |}.

(** The same upstream beside a store with a quota of [limit] code
    units. *)
Definition cramped (limit : nat) : World :=
  {| fetch := fetch mocked;
     refineMessage := refineMessage mocked;
     write := Storage.quota limit |}.

(** Every handler of the run resumes beside a store that takes every
    write. *)
Definition unhindered (evs : list Event) : Prop :=
  Forall (fun ev => match ev with
                    | Resume _ w => takesWrites w
                    | _ => True
                    end) evs.


(** ** What the page holds about its session *)

(** [localStorage.getItem('slack_token') || ''] *)
Definition persistedToken (st : Storage.t) : string :=
  match Storage.getItem st "slack_token" with
  | Some v => v
  | None => ""
  end.

(** No discovered token is the active credential. *)
Definition discoveredApart (s : State) : Prop :=
  Forall (fun found => snd found <> token s) (discoveredTokens s).

(** A raised toast has a timer behind it, and no timer is due later than
    [TOAST_MS] from now. *)
Definition toastBacked (s : State) : Prop :=
  (successToast s = true -> timers s <> [])
  /\ Forall (fun due => due <= now s + TOAST_MS) (timers s).

(** [!selectedChannel] *)
Definition noChannel (s : State) : bool :=
  match selectedChannel s with
  | Some channel => negb (truthy channel)
  | None => true
  end.

(** ** The persisted pair *)



End App.

(* ================================================================== *)
(** * The token shape, in the words of the specification *)
(* ================================================================== *)

Module TokenShape.
Import TokenScan.

Fixpoint allChars (p : ascii -> bool) (s : string) : bool :=
  match s with
  | String c rest => (p c && allChars p rest)%bool
  | EmptyString => true
  end.

(** A platform prefix ([xoxb-], [xoxa-] or [xoxp-]) followed by one or
    more alphanumeric or hyphen characters. *)
Definition Shaped (m : string) : Prop :=
  exists k run,
    is_kind k = true /\ run <> "" /\ allChars is_token_char run = true
    /\ m = String "x" (String "o" (String "x" (String k (String "-" run)))).

(** No token-shaped text occurs anywhere within [v]. *)
Definition Absent (v : string) : Prop :=
  forall pre m post, v = pre ++ m ++ post -> ~ Shaped m.

(** [m] is the matched substring of [v]: a token-shaped occurrence, the
    first one from the left and, there, the longest. *)
Definition Matched (v m : string) : Prop :=
  exists pre post,
    v = pre ++ m ++ post
    /\ Shaped m
    /\ (forall pre' m' post',
          v = pre' ++ m' ++ post' -> Shaped m' ->
          String.length pre <= String.length pre'
          /\ (String.length pre' = String.length pre ->
              String.length m' <= String.length m)).

(** The scan the specification describes, entry by entry in store order:
    an entry is kept with its matched substring when that differs from the
    active credential. *)
Inductive Scanned (token : string) : Storage.t -> list Found -> Prop :=
| Scanned_done : Scanned token [] []
| Scanned_keep k v m rest out :
    Matched v m -> m <> token ->
    Scanned token rest out -> Scanned token ((k, v) :: rest) ((k, m) :: out)
| Scanned_active k v rest out :
    Matched v token ->
    Scanned token rest out -> Scanned token ((k, v) :: rest) out
| Scanned_absent k v rest out :
    Absent v ->
    Scanned token rest out -> Scanned token ((k, v) :: rest) out.

(** The same with the guard of the sources on the key: an entry under the
    empty key is passed over. *)
Inductive ScannedKeyed (token : string) : Storage.t -> list Found -> Prop :=
| Keyed_done : ScannedKeyed token [] []
| Keyed_keep k v m rest out :
    k <> "" -> Matched v m -> m <> token ->
    ScannedKeyed token rest out -> ScannedKeyed token ((k, v) :: rest) ((k, m) :: out)
| Keyed_active k v rest out :
    Matched v token ->
    ScannedKeyed token rest out -> ScannedKeyed token ((k, v) :: rest) out
| Keyed_absent k v rest out :
    Absent v ->
    ScannedKeyed token rest out -> ScannedKeyed token ((k, v) :: rest) out
| Keyed_nokey v rest out :
    ScannedKeyed token rest out -> ScannedKeyed token (("", v) :: rest) out.

(** What the second copy keeps: the whole value, when it starts with
    [xoxb-] or [xoxp-] and is not the active credential, under a key that
    is not empty. *)
Definition keptWhole (token : string) (kv : string * string) : bool :=
  (negb (fst kv =? "")
   && (prefix "xoxb-" (snd kv) || prefix "xoxp-" (snd kv))
   && negb (snd kv =? token))%bool.

End TokenShape.

(* ================================================================== *)
(** * Results: the messaging client *)
(* ================================================================== *)

Section MessagingClient.
Import SlackService.

Variable fetch : Transport.
Variable svc : SlackService.t.
Variable endpoint : string.
Variable options : RequestInit.

(** [request] asks the network once, for [fetchCall]. *)
Lemma request_depends_on_one_call (fetch' : Transport) :
  fetch' (fetchCall svc endpoint options) = fetch (fetchCall svc endpoint options) ->
  request fetch' svc endpoint options = request fetch svc endpoint options.
Proof.
  intros H. unfold request, requestAttempt. rewrite H. reflexivity.
Qed.

Lemma request_rejected reason :
  fetch (fetchCall svc endpoint options) = Rejects reason ->
  request fetch svc endpoint options = Throw (mkError PlainError "CORS_ERROR").
Proof.
  intros H. unfold request, requestAttempt. rewrite H. reflexivity.
Qed.

Lemma request_bad_status response :
  fetch (fetchCall svc endpoint options) = Resolves response ->
  ok response = false ->
  request fetch svc endpoint options
  = Throw (mkError PlainError ("HTTP_" ++ decimal (status response))).
Proof.
  intros H Hok. unfold request, requestAttempt. rewrite H, Hok. reflexivity.
Qed.

Lemma request_undecodable response e :
  fetch (fetchCall svc endpoint options) = Resolves response ->
  ok response = true ->
  json response = Throw e ->
  request fetch svc endpoint options
  = if instanceofTypeError e then Throw (mkError PlainError "CORS_ERROR") else Throw e.
Proof.
  intros H Hok Hj. unfold request, requestAttempt. rewrite H, Hok, Hj. reflexivity.
Qed.

Lemma request_object response fields :
  fetch (fetchCall svc endpoint options) = Resolves response ->
  ok response = true ->
  json response = Return (Obj fields) ->
  request fetch svc endpoint options
  = match lookup "ok" fields with
    | Some flag =>
        if truthy flag then Return (Obj fields)
        else match lookup "error" fields with
             | Some err =>
                 tryCatch (e <- newError (or err (Str "slack_api_error")) ;; Throw e)
                          (fun error =>
                             if instanceofTypeError error
                             then Throw (mkError PlainError "CORS_ERROR")
                             else Throw error)
             | None => Throw (mkError PlainError "slack_api_error")
             end
    | None =>
        match lookup "error" fields with
        | Some err =>
            tryCatch (e <- newError (or err (Str "slack_api_error")) ;; Throw e)
                     (fun error =>
                        if instanceofTypeError error
                        then Throw (mkError PlainError "CORS_ERROR")
                        else Throw error)
        | None => Throw (mkError PlainError "slack_api_error")
        end
    end.
Proof.
  intros H Hok Hj. unfold request, requestAttempt. rewrite H, Hok, Hj.
  cbn [negb bind get].
  destruct (lookup "ok" fields) as [flag|]; cbn [bind truthy negb].
  - destruct (truthy flag); cbn [negb]; [reflexivity|].
    destruct (lookup "error" fields); reflexivity.
  - destruct (lookup "error" fields); reflexivity.
Qed.

End MessagingClient.

Lemma bad_status_is_not_the_sentinel (n : string) : ("HTTP_" ++ n =? "CORS_ERROR") = false.
Proof. reflexivity. Qed.

Lemma nonempty_eqb (x : string) : x <> "" -> negb (x =? "") = true.
Proof. intros H. apply negb_true_iff, String.eqb_neq, H. Qed.

(** The callers' own tests agree with [App.classify]: what [fetchChannels]
    and [handleConnect] store in [errorType] is the class of the outcome. *)
Lemma fetchChannels_errorType ed w svc s :
  App.errorType (App.fetchChannelsResumed ed w svc s)
  = match App.classify (SlackService.fetchChannels (App.fetch w) svc) with
    | App.Success _ => None
    | App.AuthError _ => Some App.AUTH
    | App.TransportBlocked => Some App.CORS
    end.
Proof.
  unfold App.fetchChannelsResumed, App.classify.
  destruct (SlackService.fetchChannels (App.fetch w) svc) as [v|err]; [reflexivity|].
  destruct (Js.message err =? "CORS_ERROR"); reflexivity.
Qed.

Lemma handleConnect_errorType ed w tok (proxy : bool) s err :
  SlackService.testConnection (App.fetch w)
    (SlackService.new tok (if proxy then Some App.DEFAULT_PROXY else None)) = Throw err ->
  App.errorType (App.handleConnectResumed ed w tok proxy s)
  = match App.classify (Throw err) with
    | App.Success _ => None
    | App.AuthError _ => Some App.AUTH
    | App.TransportBlocked => Some App.CORS
    end.
Proof.
  intros H. unfold App.handleConnectResumed, App.connectFailed, App.classify. rewrite H.
  destruct (Js.message err =? "CORS_ERROR"); reflexivity.
Qed.

Lemma fetchChannels_propagates fetch svc e :
  SlackService.request fetch svc
    "conversations.list?types=public_channel,private_channel&limit=100"
    SlackService.noOptions = Throw e ->
  SlackService.fetchChannels fetch svc = Throw e.
Proof. intros H. unfold SlackService.fetchChannels. rewrite H. reflexivity. Qed.

(** C3. When the transport raises (the [fetch] promise rejects, no status
    was produced), [request] throws the error ['CORS_ERROR'], which its
    callers class as TransportBlocked and never as AuthError. *)
Theorem C3_transport_exception_is_transport_blocked :
  forall (fetch : SlackService.Transport) svc endpoint options reason,
    fetch (SlackService.fetchCall svc endpoint options) = SlackService.Rejects reason ->
    SlackService.request fetch svc endpoint options = Throw (mkError PlainError "CORS_ERROR")
    /\ App.classify (SlackService.request fetch svc endpoint options) = App.TransportBlocked
    /\ (forall msg,
          App.classify (SlackService.request fetch svc endpoint options) <> App.AuthError msg).
Proof.
  intros fetch svc endpoint options reason H.
  rewrite (request_rejected fetch svc endpoint options reason H).
  repeat split; intros; discriminate.
Qed.

Lemma C3_witness :
  let fetch : SlackService.Transport := fun _ => SlackService.Rejects "Failed to fetch" in
  let svc := SlackService.new "xoxb-1" None in
  App.classify (SlackService.request fetch svc "auth.test" SlackService.noOptions)
  = App.TransportBlocked.
Proof.
  intros fetch svc.
  apply (C3_transport_exception_is_transport_blocked
           fetch svc "auth.test" SlackService.noOptions "Failed to fetch").
  reflexivity.
Defined.

(** A rejected list request ends in [errorType = 'CORS'] in both copies of
    the page. *)
Lemma fetchChannels_blocked_shows_CORS ed w svc s reason :
  App.fetch w (SlackService.fetchCall svc
                 "conversations.list?types=public_channel,private_channel&limit=100"
                 SlackService.noOptions) = SlackService.Rejects reason ->
  App.errorType (App.fetchChannelsResumed ed w svc s) = Some App.CORS
  /\ App.status (App.fetchChannelsResumed ed w svc s) = App.ERROR.
Proof.
  intros H.
  pose proof (request_rejected _ _ _ _ _ H) as Hr.
  apply fetchChannels_propagates in Hr.
  unfold App.fetchChannelsResumed. rewrite Hr. split; reflexivity.
Qed.

(** C4. A response with a status outside 200..299 makes [request] throw
    [HTTP_<status>], which is classed as AuthError with that message, the
    status written in decimal. *)
Theorem C4_bad_status_is_auth_error :
  forall (fetch : SlackService.Transport) svc endpoint options response,
    fetch (SlackService.fetchCall svc endpoint options) = SlackService.Resolves response ->
    SlackService.ok response = false ->
    SlackService.request fetch svc endpoint options
    = Throw (mkError PlainError ("HTTP_" ++ decimal (SlackService.status response)))
    /\ App.classify (SlackService.request fetch svc endpoint options)
       = App.AuthError ("HTTP_" ++ decimal (SlackService.status response)).
Proof.
  intros fetch svc endpoint options response H Hok.
  rewrite (request_bad_status fetch svc endpoint options response H Hok).
  split; reflexivity.
Qed.

Lemma C4_witness :
  let fetch : SlackService.Transport :=
    fun _ => SlackService.Resolves {| SlackService.status := 404;
                                      SlackService.json := Return Null |} in
  App.classify (SlackService.request fetch (SlackService.new "xoxb-1" None) "auth.test"
                                     SlackService.noOptions)
  = App.AuthError "HTTP_404".
Proof.
  intros fetch.
  apply (C4_bad_status_is_auth_error fetch (SlackService.new "xoxb-1" None) "auth.test"
           SlackService.noOptions
           {| SlackService.status := 404; SlackService.json := Return Null |});
    reflexivity.
Defined.

(** A list request answered with a bad status ends in [errorType = 'AUTH']
    and shows the message with the status code. *)
Lemma fetchChannels_bad_status_shows_AUTH ed w svc s response :
  App.fetch w (SlackService.fetchCall svc
                 "conversations.list?types=public_channel,private_channel&limit=100"
                 SlackService.noOptions) = SlackService.Resolves response ->
  SlackService.ok response = false ->
  App.errorType (App.fetchChannelsResumed ed w svc s) = Some App.AUTH
  /\ App.errorMessage (App.fetchChannelsResumed ed w svc s)
     = Some ("HTTP_" ++ decimal (SlackService.status response)).
Proof.
  intros H Hok.
  pose proof (request_bad_status _ _ _ _ _ H Hok) as Hr.
  apply fetchChannels_propagates in Hr.
  unfold App.fetchChannelsResumed. rewrite Hr. split; reflexivity.
Qed.

(** C5, as the specification states it, fails: for the empty error string
    the fallback text is used instead of the field, and the error string
    ['CORS_ERROR'] is classed as TransportBlocked. *)
Lemma C5_counterexample :
  let svc := SlackService.new "xoxb-1" None in
  let outcome x :=
    App.classify
      (SlackService.request (SlackService.answering (Obj [("ok", Bool false); ("error", Str x)]))
                            svc "auth.test" SlackService.noOptions) in
  outcome "" = App.AuthError "slack_api_error"
  /\ outcome "" <> App.AuthError ""
  /\ outcome "CORS_ERROR" = App.TransportBlocked
  /\ outcome "CORS_ERROR" <> App.AuthError "CORS_ERROR".
Proof.
  cbv zeta. repeat split; try reflexivity; vm_compute; discriminate.
Qed.

(** C5, amended. After a successful status, a decoded object with
    [ok: false]: a non-empty error string [x] is thrown as the message, and
    classed as AuthError with message [x] when [x] is not the text
    ['CORS_ERROR']; a missing or empty error field gives AuthError with the
    fallback message ['slack_api_error']. *)
Theorem C5_logical_failure_is_auth_error :
  forall (fetch : SlackService.Transport) svc endpoint options response fields,
    fetch (SlackService.fetchCall svc endpoint options) = SlackService.Resolves response ->
    SlackService.ok response = true ->
    SlackService.json response = Return (Obj fields) ->
    lookup "ok" fields = Some (Bool false) ->
    (forall x,
        lookup "error" fields = Some (Str x) -> x <> "" ->
        SlackService.request fetch svc endpoint options = Throw (mkError PlainError x)
        /\ (x <> "CORS_ERROR" ->
            App.classify (SlackService.request fetch svc endpoint options) = App.AuthError x))
    /\ (lookup "error" fields = None \/ lookup "error" fields = Some (Str "") ->
        SlackService.request fetch svc endpoint options
        = Throw (mkError PlainError "slack_api_error")
        /\ App.classify (SlackService.request fetch svc endpoint options)
           = App.AuthError "slack_api_error").
Proof.
  intros fetch svc endpoint options response fields H Hok Hj Hflag.
  rewrite (request_object fetch svc endpoint options response fields H Hok Hj), Hflag.
  cbn [truthy]. split.
  - intros x Hx Hne. rewrite Hx.
    unfold or, newError. cbn [truthy]. rewrite (nonempty_eqb x Hne).
    cbn. split; [reflexivity|].
    intros Hs. apply String.eqb_neq in Hs. rewrite Hs. reflexivity.
  - intros [Hx|Hx]; rewrite Hx; split; reflexivity.
Qed.

Lemma C5_witness :
  App.classify
    (SlackService.request (SlackService.answering (Obj [("ok", Bool false); ("error", Str "invalid_auth")]))
                          (SlackService.new "xoxb-1" None) "auth.test" SlackService.noOptions)
  = App.AuthError "invalid_auth"
  /\ App.classify
       (SlackService.request (SlackService.answering (Obj [("ok", Bool false)]))
                             (SlackService.new "xoxb-1" None) "auth.test" SlackService.noOptions)
     = App.AuthError "slack_api_error".
Proof.
  split.
  - refine (proj2 (proj1 (C5_logical_failure_is_auth_error
                            (SlackService.answering (Obj [("ok", Bool false); ("error", Str "invalid_auth")]))
                            (SlackService.new "xoxb-1" None) "auth.test" SlackService.noOptions
                            _ _ eq_refl eq_refl eq_refl eq_refl)
                          "invalid_auth" eq_refl _) _); discriminate.
  - refine (proj2 (proj2 (C5_logical_failure_is_auth_error
                            (SlackService.answering (Obj [("ok", Bool false)]))
                            (SlackService.new "xoxb-1" None) "auth.test" SlackService.noOptions
                            _ _ eq_refl eq_refl eq_refl eq_refl)
                          (or_introl eq_refl))).
Defined.

(** C9. After a successful status, a decoding exception that is not a
    TypeError leaves [request] as it is, not mapped to ['CORS_ERROR']; the
    caller, which tells the classes apart by the message, classes it as
    AuthError with the exception's message.  The decoder's message is a
    diagnostic written by the engine, never the bare text ['CORS_ERROR'],
    which is the one message the caller would read as a blocked
    transport. *)
Theorem C9_undecodable_body_propagates :
  forall (fetch : SlackService.Transport) svc endpoint options response e,
    fetch (SlackService.fetchCall svc endpoint options) = SlackService.Resolves response ->
    SlackService.ok response = true ->
    SlackService.json response = Throw e ->
    instanceofTypeError e = false ->
    SlackService.request fetch svc endpoint options = Throw e
    /\ (Js.message e <> "CORS_ERROR" ->
        App.classify (SlackService.request fetch svc endpoint options)
        = App.AuthError (Js.message e)).
Proof.
  intros fetch svc endpoint options response e H Hok Hj Hcls.
  rewrite (request_undecodable fetch svc endpoint options response e H Hok Hj), Hcls.
  split; [reflexivity|].
  intros Hm. apply String.eqb_neq in Hm. cbn. rewrite Hm. reflexivity.
Qed.

Lemma C9_witness :
  let e := mkError SyntaxError "Unexpected token < in JSON at position 0" in
  let fetch : SlackService.Transport :=
    fun _ => SlackService.Resolves {| SlackService.status := 200;
                                      SlackService.json := Throw e |} in
  SlackService.request fetch (SlackService.new "xoxb-1" None) "auth.test"
                       SlackService.noOptions = Throw e
  /\ App.classify (SlackService.request fetch (SlackService.new "xoxb-1" None) "auth.test"
                                        SlackService.noOptions)
     = App.AuthError "Unexpected token < in JSON at position 0".
Proof.
  intros e fetch.
  destruct (C9_undecodable_body_propagates
              fetch (SlackService.new "xoxb-1" None) "auth.test" SlackService.noOptions
              {| SlackService.status := 200; SlackService.json := Throw e |} e
              eq_refl eq_refl eq_refl eq_refl) as [Hthrown Hclass].
  split; [exact Hthrown|]. apply Hclass. discriminate.
Defined.

(** A decoding failure that is a TypeError is mapped like a transport
    failure. *)
Lemma undecodable_TypeError_is_blocked fetch svc endpoint options response msg :
  fetch (SlackService.fetchCall svc endpoint options) = SlackService.Resolves response ->
  SlackService.ok response = true ->
  SlackService.json response = Throw (mkError TypeError msg) ->
  SlackService.request fetch svc endpoint options = Throw (mkError PlainError "CORS_ERROR").
Proof.
  intros H Hok Hj.
  rewrite (request_undecodable fetch svc endpoint options response _ H Hok Hj).
  reflexivity.
Qed.

(** C10. A successful list response whose decoded object has [ok: true] and
    no [channels] field makes [fetchChannels] return the empty list. *)
Theorem C10_missing_channels_is_empty_list :
  forall (fetch : SlackService.Transport) svc response fields,
    fetch (SlackService.fetchCall svc
             "conversations.list?types=public_channel,private_channel&limit=100"
             SlackService.noOptions) = SlackService.Resolves response ->
    SlackService.ok response = true ->
    SlackService.json response = Return (Obj fields) ->
    lookup "ok" fields = Some (Bool true) ->
    lookup "channels" fields = None ->
    SlackService.fetchChannels fetch svc = Return (Arr []).
Proof.
  intros fetch svc response fields H Hok Hj Hflag Hch.
  unfold SlackService.fetchChannels.
  rewrite (request_object fetch svc _ _ response fields H Hok Hj), Hflag.
  cbn [truthy bind get]. rewrite Hch. reflexivity.
Qed.

Lemma C10_witness :
  SlackService.fetchChannels (SlackService.answering (Obj [("ok", Bool true)]))
                             (SlackService.new "xoxb-1" None)
  = Return (Arr []).
Proof.
  exact (C10_missing_channels_is_empty_list
           (SlackService.answering (Obj [("ok", Bool true)])) (SlackService.new "xoxb-1" None)
           _ _ eq_refl eq_refl eq_refl eq_refl eq_refl).
Defined.

(** The page then shows an empty channel list, in both copies. *)
Lemma missing_channels_shown_empty ed w svc s response fields :
  App.fetch w (SlackService.fetchCall svc
                 "conversations.list?types=public_channel,private_channel&limit=100"
                 SlackService.noOptions) = SlackService.Resolves response ->
  SlackService.ok response = true ->
  SlackService.json response = Return (Obj fields) ->
  lookup "ok" fields = Some (Bool true) ->
  lookup "channels" fields = None ->
  App.channels (App.fetchChannelsResumed ed w svc s) = Arr []
  /\ App.status (App.fetchChannelsResumed ed w svc s) = App.SUCCESS.
Proof.
  intros H Hok Hj Hflag Hch.
  unfold App.fetchChannelsResumed, SlackService.fetchChannels.
  rewrite (request_object _ svc _ _ response fields H Hok Hj), Hflag.
  cbn [truthy bind get]. rewrite Hch. split; reflexivity.
Qed.

(** C6. With no proxy the request goes to the canonical URL
    [https://slack.com/api/<endpoint>]; with a proxy prefix it goes to the
    prefix followed by the whole canonical URL.  The credential plays no
    part in the URL. *)
Theorem C6_request_url :
  forall credential endpoint options,
    SlackService.targetUrl endpoint = "https://slack.com/api/" ++ endpoint
    /\ SlackService.url
         (SlackService.fetchCall (SlackService.new credential None) endpoint options)
       = SlackService.targetUrl endpoint
    /\ (forall prefix,
          SlackService.url
            (SlackService.fetchCall (SlackService.new credential (Some prefix)) endpoint options)
          = prefix ++ SlackService.targetUrl endpoint).
Proof.
  intros credential endpoint options. repeat split.
  intros prefix. cbn. unfold SlackService.finalUrl. cbn.
  destruct prefix as [|c rest]; reflexivity.
Qed.

(* ================================================================== *)
(** * Results: the refinement client *)
(* ================================================================== *)

Section RefinementClient.
Import Gemini.

Variable env : Env.
Variable ai : Backend.
Variable message : string.
Variable tone : option Tone.

Lemma safeEnv_truthy : truthy (GeminiService_part001.safeEnv env) = true.
Proof.
  unfold GeminiService_part001.safeEnv.
  destruct (process env); try reflexivity;
    unfold or; destruct (truthy (windowEnv env)) eqn:E; auto.
Qed.

Lemma safeEnv_key : exists key, get (GeminiService_part001.safeEnv env) "API_KEY" = Return key.
Proof.
  pose proof safeEnv_truthy as H.
  destruct (GeminiService_part001.safeEnv env); try discriminate; cbn; eauto.
  destruct (lookup "API_KEY" fields); eauto.
Qed.

Let call001 (key : JsVal) : GenerateCall :=
  GeminiService_part001.call key message (toneOrDefault tone).

(** The copy of part_001 with the key unset: one warning, no network
    call, the input returned. *)
Lemma part001_missing_key key :
  get (GeminiService_part001.safeEnv env) "API_KEY" = Return key ->
  truthy key = false ->
  GeminiService_part001.refineMessage env ai message tone
  = ([ConsoleWarn "Gemini Service: API_KEY is missing. Refinement disabled."],
     Return message).
Proof.
  intros Hk Ht. unfold GeminiService_part001.refineMessage. rewrite Hk, Ht. reflexivity.
Qed.

(** The same copy when the generation call fails: logged, input
    returned. *)
Lemma part001_generation_error key e :
  get (GeminiService_part001.safeEnv env) "API_KEY" = Return key ->
  truthy key = true ->
  ai (call001 key) = GenRejects e ->
  GeminiService_part001.refineMessage env ai message tone
  = ([NetworkCall (call001 key); ConsoleError "Gemini refinement failed:" e],
     Return message).
Proof.
  intros Hk Ht Ha. unfold GeminiService_part001.refineMessage. rewrite Hk, Ht.
  cbn [negb]. unfold generateContent. fold (call001 key). rewrite Ha. reflexivity.
Qed.

Lemma part001_response key text :
  get (GeminiService_part001.safeEnv env) "API_KEY" = Return key ->
  truthy key = true ->
  ai (call001 key) = GenResolves text ->
  GeminiService_part001.refineMessage env ai message tone
  = ([NetworkCall (call001 key)], Return (textOr text message)).
Proof.
  intros Hk Ht Ha. unfold GeminiService_part001.refineMessage. rewrite Hk, Ht.
  cbn [negb]. unfold generateContent. fold (call001 key). rewrite Ha. reflexivity.
Qed.

(** The copy of part_001 never raises: it returns the input, or the
    non-empty text the generation call produced. *)
Lemma part001_never_raises :
  snd (GeminiService_part001.refineMessage env ai message tone) = Return message
  \/ exists key text,
      text <> ""
      /\ ai (call001 key) = GenResolves (Some text)
      /\ snd (GeminiService_part001.refineMessage env ai message tone) = Return text.
Proof.
  destruct safeEnv_key as [key Hk].
  destruct (truthy key) eqn:Ht.
  - destruct (ai (call001 key)) as [e|text] eqn:Ha.
    + rewrite (part001_generation_error key e Hk Ht Ha). left. reflexivity.
    + rewrite (part001_response key text Hk Ht Ha). cbn [snd].
      destruct text as [t|]; [|left; reflexivity].
      unfold textOr. destruct (t =? "") eqn:Et; cbn [negb]; [left; reflexivity|].
      right. exists key, t. apply String.eqb_neq in Et. auto.
  - rewrite (part001_missing_key key Hk Ht). left. reflexivity.
Qed.

Variable this : GeminiService_part000.t.

Let call000 : GenerateCall :=
  GeminiService_part000.call this message (toneOrDefault tone).

(** The copy of part_000 always calls the network, and a failing call
    comes out of [refineMessage] as it is. *)
Lemma part000_generation_error e :
  ai call000 = GenRejects e ->
  GeminiService_part000.refineMessage this ai message tone
  = ([NetworkCall call000], Throw e).
Proof.
  intros Ha. unfold GeminiService_part000.refineMessage, generateContent.
  fold call000. rewrite Ha. reflexivity.
Qed.

Lemma part000_response text :
  ai call000 = GenResolves text ->
  GeminiService_part000.refineMessage this ai message tone
  = ([NetworkCall call000], Return (textOr text message)).
Proof.
  intros Ha. unfold GeminiService_part000.refineMessage, generateContent.
  fold call000. rewrite Ha. reflexivity.
Qed.

End RefinementClient.

(** C1, at the failing input: the copy of part_000, built without a
    configured key, asked to refine ["hi"] while the generation call fails.
    It has called the network and it raises, where the copy of part_001
    returns ["hi"] without calling the network; and where the page has no
    [process] global the copy of part_000 cannot even be constructed. *)
Theorem C1_part000_raises :
  let env := {| Gemini.process := Gemini.ProcessEnv []; Gemini.windowEnv := Undefined |} in
  let bare := {| Gemini.process := Gemini.NoProcess; Gemini.windowEnv := Undefined |} in
  let failure := mkError PlainError "API key not valid" in
  let ai : Gemini.Backend := fun _ => Gemini.GenRejects failure in
  let this := {| GeminiService_part000.ai_apiKey := Str "" |} in
  GeminiService_part000.new env = Return this
  /\ GeminiService_part000.refineMessage this ai "hi" (Some Gemini.professional)
     = ([Gemini.NetworkCall (GeminiService_part000.call this "hi" Gemini.professional)],
        Throw failure)
  /\ GeminiService_part001.refineMessage env ai "hi" (Some Gemini.professional)
     = ([Gemini.ConsoleWarn "Gemini Service: API_KEY is missing. Refinement disabled."],
        Return "hi")
  /\ GeminiService_part000.new bare
     = Throw (mkError (OtherError "ReferenceError") "process is not defined")
  /\ GeminiService_part001.refineMessage bare ai "hi" (Some Gemini.professional)
     = ([Gemini.ConsoleWarn "Gemini Service: API_KEY is missing. Refinement disabled."],
        Return "hi").
Proof.
  cbv zeta. repeat split.
Qed.

(* ================================================================== *)
(** * Results: the token scan *)
(* ================================================================== *)

Section Strings.

Lemma append_empty_r (s : string) : s ++ "" = s.
Proof. induction s as [|c s IH]; cbn; [reflexivity | now rewrite IH]. Qed.

Lemma append_assoc (a b c : string) : (a ++ b) ++ c = a ++ (b ++ c).
Proof. induction a as [|x a IH]; cbn; [reflexivity | now rewrite IH]. Qed.

Lemma length_append (a b : string) :
  String.length (a ++ b) = String.length a + String.length b.
Proof. induction a as [|x a IH]; cbn; [reflexivity | now rewrite IH]. Qed.

Lemma append_split_same_length (pre pre' a b : string) :
  pre ++ a = pre' ++ b ->
  String.length pre = String.length pre' ->
  pre = pre' /\ a = b.
Proof.
  revert pre'. induction pre as [|x pre IH]; intros [|y pre'] H Hl; cbn in *;
    try discriminate; auto.
  injection H as -> H. injection Hl as Hl.
  destruct (IH pre' H Hl) as [-> ->]. auto.
Qed.

End Strings.

Section Pattern.
Import TokenScan TokenShape.

Lemma takeWhile_prefix p s : exists post, s = takeWhile p s ++ post.
Proof.
  induction s as [|c s [post IH]]; cbn.
  - exists "". reflexivity.
  - destruct (p c).
    + exists post. cbn. now rewrite <- IH.
    + exists (String c s). reflexivity.
Qed.

Lemma takeWhile_all p s : allChars p (takeWhile p s) = true.
Proof.
  induction s as [|c s IH]; cbn; [reflexivity|].
  destruct (p c) eqn:E; cbn; [now rewrite E, IH | reflexivity].
Qed.

Lemma takeWhile_longest p run post :
  allChars p run = true ->
  String.length run <= String.length (takeWhile p (run ++ post)).
Proof.
  induction run as [|c run IH]; cbn; intros H; [lia|].
  apply andb_true_iff in H as [Hc Hr]. rewrite Hc. cbn. apply IH in Hr. lia.
Qed.

Lemma regexMatch_eq s :
  regexMatch s
  = match matchHere s with
    | Some m => Some m
    | None => match s with
              | String _ rest => regexMatch rest
              | EmptyString => None
              end
    end.
Proof. destruct s; reflexivity. Qed.

(** What the pattern matches at the start of a text is token-shaped and
    is a prefix of the text. *)
Lemma matchHere_sound s m :
  matchHere s = Some m -> Shaped m /\ exists post, s = m ++ post.
Proof.
  destruct s as [|c1 [|c2 [|c3 [|k [|c5 rest]]]]]; cbn; try discriminate.
  destruct (_ && _)%bool eqn:E; [|discriminate].
  apply andb_true_iff in E as [E H5]. apply andb_true_iff in E as [E Hk].
  apply andb_true_iff in E as [E H3]. apply andb_true_iff in E as [H1 H2].
  apply Ascii.eqb_eq in H1, H2, H3, H5. subst c1 c2 c3 c5.
  destruct (takeWhile_prefix is_token_char rest) as [post Hpost].
  pose proof (takeWhile_all is_token_char rest) as Hall.
  destruct (takeWhile is_token_char rest) as [|r run] eqn:Et; [discriminate|].
  intros [= <-]. split.
  - exists k, (String r run). repeat split; auto. discriminate.
  - exists post. cbn. cbn in Hpost. now rewrite Hpost at 1.
Qed.

(** Wherever a token-shaped text starts, the pattern matches, and at
    least as far. *)
Lemma matchHere_complete s m' post' :
  Shaped m' -> s = m' ++ post' ->
  exists m, matchHere s = Some m /\ String.length m' <= String.length m.
Proof.
  intros (k & run & Hk & Hne & Hall & ->) ->. cbn. rewrite Hk. cbn.
  pose proof (takeWhile_longest is_token_char run post' Hall) as Hlen.
  destruct (takeWhile is_token_char (run ++ post')) as [|r t] eqn:Et.
  - destruct run; [congruence | cbn in Hlen; lia].
  - eexists. split; [reflexivity|]. cbn in *. lia.
Qed.

Lemma regexMatch_found s :
  forall m, regexMatch s = Some m ->
  exists pre post,
    s = pre ++ m ++ post
    /\ matchHere (m ++ post) = Some m
    /\ (forall pre' rest,
          s = pre' ++ rest -> String.length pre' < String.length pre ->
          matchHere rest = None).
Proof.
  induction s as [|c r IH]; intros m; rewrite regexMatch_eq.
  - cbn. discriminate.
  - destruct (matchHere (String c r)) as [m0|] eqn:E.
    + intros [= <-]. destruct (matchHere_sound _ _ E) as [_ [post Hpost]].
      exists "", post. cbn [append String.length]. rewrite <- Hpost.
      repeat split; auto. intros; lia.
    + intros H. destruct (IH m H) as (pre & post & Hs & Hm & Hearlier).
      exists (String c pre), post. cbn [append]. rewrite <- Hs.
      repeat split; auto.
      intros [|c' pre''] rest Heq Hlen; cbn in *.
      * now subst rest.
      * injection Heq as -> Heq. apply (Hearlier pre''); [assumption | lia].
Qed.

Lemma regexMatch_nowhere s :
  regexMatch s = None -> forall pre rest, s = pre ++ rest -> matchHere rest = None.
Proof.
  induction s as [|c r IH]; rewrite regexMatch_eq.
  - intros _ [|x pre] rest; cbn; [intros <-; reflexivity | discriminate].
  - destruct (matchHere (String c r)) eqn:E; [discriminate|].
    intros H [|x pre] rest; cbn.
    + now intros <-.
    + intros [= <- Heq]. apply (IH H pre rest Heq).
Qed.

(** [val.match(slackPattern)] yields the matched substring of the
    specification: the leftmost token-shaped occurrence, taken as long as
    it goes. *)
Lemma regexMatch_Matched v m : regexMatch v = Some m -> Matched v m.
Proof.
  intros H. destruct (regexMatch_found v m H) as (pre & post & Hv & Hm & Hearlier).
  exists pre, post. split; [assumption|]. split; [apply (matchHere_sound _ _ Hm)|].
  intros pre' m' post' Hv' Hshape.
  destruct (matchHere_complete (m' ++ post') m' post' Hshape eq_refl) as (m2 & Hm2 & Hlen).
  split.
  - destruct (Nat.lt_ge_cases (String.length pre') (String.length pre)) as [Hlt|]; [|assumption].
    rewrite (Hearlier pre' (m' ++ post') Hv' Hlt) in Hm2. discriminate.
  - intros Hsame.
    assert (pre' ++ m' ++ post' = pre ++ m ++ post) as Heq by congruence.
    destruct (append_split_same_length _ _ _ _ Heq Hsame) as [_ Hrest].
    rewrite Hrest, Hm in Hm2. injection Hm2 as <-. assumption.
Qed.

(** When it finds nothing, no token-shaped text occurs in the value. *)
Lemma regexMatch_Absent v : regexMatch v = None -> Absent v.
Proof.
  intros H pre m post Hv Hshape.
  destruct (matchHere_complete (m ++ post) m post Hshape eq_refl) as (m2 & Hm2 & _).
  rewrite (regexMatch_nowhere v H pre (m ++ post) Hv) in Hm2. discriminate.
Qed.

Lemma Matched_not_Absent v m : Matched v m -> ~ Absent v.
Proof. intros (pre & post & Hv & Hs & _) Habs. exact (Habs pre m post Hv Hs). Qed.

(** A value has at most one matched substring. *)
Lemma Matched_unique v m1 m2 : Matched v m1 -> Matched v m2 -> m1 = m2.
Proof.
  intros (pre1 & post1 & Hv1 & Hs1 & Hmin1) (pre2 & post2 & Hv2 & Hs2 & Hmin2).
  destruct (Hmin1 pre2 m2 post2 Hv2 Hs2) as [Hle1 Hlong1].
  destruct (Hmin2 pre1 m1 post1 Hv1 Hs1) as [Hle2 Hlong2].
  assert (String.length pre1 = String.length pre2) as Hsame by lia.
  assert (pre1 ++ m1 ++ post1 = pre2 ++ m2 ++ post2) as Heq by congruence.
  destruct (append_split_same_length _ _ _ _ Heq Hsame) as [_ Hrest].
  apply (append_split_same_length m1 m2 post1 post2 Hrest).
  specialize (Hlong1 (eq_sym Hsame)). specialize (Hlong2 Hsame). lia.
Qed.

End Pattern.

Section Scan.
Import TokenScan TokenShape.

Lemma flat_map_seq_shift {B} (f : nat -> list B) n start :
  flat_map f (seq (S start) n) = flat_map (fun i => f (S i)) (seq start n).
Proof.
  revert start. induction n as [|n IH]; intros start; cbn; [reflexivity|].
  now rewrite IH.
Qed.

Lemma flat_map_seq_ext {B} (f g : nat -> list B) n start :
  (forall i, start <= i < start + n -> f i = g i) ->
  flat_map f (seq start n) = flat_map g (seq start n).
Proof.
  revert start. induction n as [|n IH]; intros start H; cbn; [reflexivity|].
  rewrite (H start) by lia. f_equal. apply IH. intros i Hi. apply H. lia.
Qed.

Lemma key_in (st : Storage.t) i k : Storage.key st i = Some k -> In k (map fst st).
Proof.
  unfold Storage.key. destruct (nth_error st i) as [[k' v]|] eqn:E; cbn; [|discriminate].
  intros [= <-]. apply nth_error_In in E. now apply (in_map fst) in E.
Qed.

Lemma getItem_tail (st : Storage.t) k v k' :
  ~ In k (map fst st) -> In k' (map fst st) ->
  Storage.getItem ((k, v) :: st) k' = Storage.getItem st k'.
Proof.
  intros Hout Hin. unfold Storage.getItem. cbn.
  destruct (k =? k') eqn:E; [|reflexivity].
  apply String.eqb_eq in E. subst. contradiction.
Qed.

(** Both loops have the shape [look]: the key at [i], its guard, the
    value under the key, then a body.  On a store with one entry per key
    such a loop handles the first entry and then the rest. *)
Let look (body : string -> string -> list Found) (st : Storage.t) (i : nat) : list Found :=
  match Storage.key st i with
  | None => []
  | Some key =>
      if key =? "" then [] else
      match Storage.getItem st key with
      | None => []
      | Some val => body key val
      end
  end.

Lemma look_cons body k v rest :
  Storage.wf ((k, v) :: rest) ->
  flat_map (look body ((k, v) :: rest)) (seq 0 (Storage.length ((k, v) :: rest)))
  = ((if k =? "" then [] else body k v)
       ++ flat_map (look body rest) (seq 0 (Storage.length rest)))%list.
Proof.
  intros Hwf. inversion Hwf as [|? ? Hout Hrest]; subst.
  cbn [Storage.length List.length seq flat_map]. f_equal.
  - unfold look. cbn. unfold Storage.getItem. cbn. now rewrite String.eqb_refl.
  - rewrite flat_map_seq_shift. apply flat_map_seq_ext. intros i _.
    unfold look. change (Storage.key ((k, v) :: rest) (S i)) with (Storage.key rest i).
    destruct (Storage.key rest i) as [k'|] eqn:E; [|reflexivity].
    now rewrite (getItem_tail rest k v k' Hout (key_in rest i k' E)).
Qed.

Lemma scanForTokens_cons k v rest token :
  Storage.wf ((k, v) :: rest) ->
  scanForTokens ((k, v) :: rest) token
  = ((if k =? "" then [] else
      if v =? "" then [] else
      match regexMatch v with
      | Some m => if negb (m =? token) then [(k, m)] else []
      | None => []
      end) ++ scanForTokens rest token)%list.
Proof. intros Hwf. exact (look_cons _ k v rest Hwf). Qed.

Lemma scanLocalStorage_cons k v rest token :
  Storage.wf ((k, v) :: rest) ->
  scanLocalStorage ((k, v) :: rest) token
  = ((if keptWhole token (k, v) then [(k, v)] else []) ++ scanLocalStorage rest token)%list.
Proof.
  intros Hwf. etransitivity.
  { exact (look_cons (fun key val =>
                        if (negb (val =? "")
                            && (prefix "xoxb-" val || prefix "xoxp-" val)
                            && negb (val =? token))%bool
                        then [(key, val)] else []) k v rest Hwf). }
  f_equal. unfold keptWhole. cbn [fst snd].
  destruct (k =? ""); cbn [negb andb]; [reflexivity|].
  destruct v; reflexivity.
Qed.

Lemma wf_tail kv (rest : Storage.t) : Storage.wf (kv :: rest) -> Storage.wf rest.
Proof. intros H. now inversion H. Qed.

(** The first copy does what the specification describes, apart from
    passing over an entry under the empty key. *)
Lemma scanForTokens_ScannedKeyed st token :
  Storage.wf st -> ScannedKeyed token st (scanForTokens st token).
Proof.
  induction st as [|[k v] rest IH]; intros Hwf.
  - constructor.
  - rewrite (scanForTokens_cons k v rest token Hwf).
    specialize (IH (wf_tail _ _ Hwf)).
    destruct (k =? "") eqn:Ek.
    + apply String.eqb_eq in Ek. subst k. now apply Keyed_nokey.
    + apply String.eqb_neq in Ek.
      destruct (v =? "") eqn:Ev.
      * apply String.eqb_eq in Ev. subst v.
        apply Keyed_absent; [|assumption]. now apply regexMatch_Absent.
      * destruct (regexMatch v) as [m|] eqn:Em.
        -- apply regexMatch_Matched in Em.
           destruct (m =? token) eqn:Et; cbn [negb app].
           ++ apply String.eqb_eq in Et. subst m. now apply Keyed_active.
           ++ apply String.eqb_neq in Et. now apply Keyed_keep.
        -- apply Keyed_absent; [|assumption]. now apply regexMatch_Absent.
Qed.

Lemma keyed_is_scanned st token out :
  Forall (fun kv => fst kv <> "") st -> ScannedKeyed token st out -> Scanned token st out.
Proof.
  intros Hkeys H. induction H; inversion Hkeys; subst; cbn in *;
    try solve [constructor; auto]; try congruence.
Qed.

(** The description leaves one result only. *)
Lemma ScannedKeyed_deterministic token st out1 out2 :
  ScannedKeyed token st out1 -> ScannedKeyed token st out2 -> out1 = out2.
Proof.
  intros Hone. revert out2.
  induction Hone as [| k v m rest out Hk Hm Hne _ IH | k v rest out Hm _ IH
                     | k v rest out Ha _ IH | v rest out _ IH];
    intros out2 Htwo; inversion Htwo; subst;
    try reflexivity; try congruence; auto;
    try (exfalso; eapply Matched_not_Absent; eassumption).
  - match goal with
    | Hm' : Matched v ?m0 |- _ => rewrite (Matched_unique v m m0 Hm Hm')
    end.
    f_equal. auto.
  - match goal with
    | Hm' : Matched v token |- _ => elim Hne; exact (Matched_unique v m token Hm Hm')
    end.
  - match goal with
    | Hm' : Matched v ?m0, Hne' : ?m0 <> token |- _ =>
        elim Hne'; exact (Matched_unique v m0 token Hm' Hm)
    end.
Qed.

Lemma ScannedKeyed_excludes token st out :
  ScannedKeyed token st out -> forall k m, In (k, m) out -> m <> token.
Proof.
  induction 1; intros k' m' Hin; cbn in *; try contradiction; eauto.
  destruct Hin as [[= <- <-]|Hin]; eauto.
Qed.

(** The second copy keeps whole values by their first five
    characters. *)
Lemma scanLocalStorage_filter st token :
  Storage.wf st -> scanLocalStorage st token = filter (keptWhole token) st.
Proof.
  induction st as [|[k v] rest IH]; intros Hwf; [reflexivity|].
  rewrite (scanLocalStorage_cons k v rest token Hwf), (IH (wf_tail _ _ Hwf)).
  cbn [filter]. destruct (keptWhole token (k, v)); reflexivity.
Qed.

End Scan.

Lemma Scanned_keeps_a_match token k v m rest out :
  TokenShape.Matched v m -> m <> token ->
  TokenShape.Scanned token ((k, v) :: rest) out -> exists out', out = (k, m) :: out'.
Proof.
  intros Hm Hne H. inversion H; subst.
  - rewrite (Matched_unique v m m0) by assumption. eauto.
  - elim Hne. eapply Matched_unique; eassumption.
  - exfalso. eapply Matched_not_Absent; eassumption.
Qed.

Lemma Scanned_drops_without_match token k v rest out :
  TokenShape.Absent v ->
  TokenShape.Scanned token ((k, v) :: rest) out -> TokenShape.Scanned token rest out.
Proof.
  intros Ha H. inversion H; subst; try assumption;
    exfalso; eapply Matched_not_Absent; eassumption.
Qed.

(** C2, as stated, fails.  In both copies an entry under the empty key is
    passed over although its value holds a token.  In the second copy a
    token inside a longer value is not found, and the bare prefix [xoxb-],
    which the shape excludes, is reported. *)
Lemma C2_counterexample :
  (Storage.wf [("", "xoxb-123abc")]
   /\ TokenScan.scanForTokens [("", "xoxb-123abc")] "" = []
   /\ ~ TokenShape.Scanned "" [("", "xoxb-123abc")] [])
  /\ (Storage.wf [("a", "t=xoxb-1")]
      /\ TokenScan.scanLocalStorage [("a", "t=xoxb-1")] "" = []
      /\ ~ TokenShape.Scanned "" [("a", "t=xoxb-1")] [])
  /\ (Storage.wf [("a", "xoxb-")]
      /\ TokenScan.scanLocalStorage [("a", "xoxb-")] "" = [("a", "xoxb-")]
      /\ ~ TokenShape.Scanned "" [("a", "xoxb-")] [("a", "xoxb-")]).
Proof.
  assert (forall k v, Storage.wf [(k, v)]) as Hwf.
  { intros k v. constructor; [intros []|constructor]. }
  repeat split; try apply Hwf.
  - intros H.
    assert (TokenShape.Matched "xoxb-123abc" "xoxb-123abc") as Hm
        by (apply regexMatch_Matched; reflexivity).
    destruct (Scanned_keeps_a_match "" "" _ _ [] [] Hm ltac:(discriminate) H) as [? ?].
    discriminate.
  - intros H.
    assert (TokenShape.Matched "t=xoxb-1" "xoxb-1") as Hm
        by (apply regexMatch_Matched; reflexivity).
    destruct (Scanned_keeps_a_match "" "a" _ _ [] [] Hm ltac:(discriminate) H) as [? ?].
    discriminate.
  - intros H.
    assert (TokenShape.Absent "xoxb-") as Ha by (apply regexMatch_Absent; reflexivity).
    apply (Scanned_drops_without_match "" "a" _ [] _ Ha) in H. inversion H.
Qed.

(** C2, amended.  On a store with one entry per key, entries under the
    empty key being passed over: the first copy ([scanForTokens]) returns, in
    store order, each key with the matched substring of its value (the
    leftmost token-shaped occurrence, as long as it goes) when that differs
    from the active credential, and nothing else; the second copy
    ([scanLocalStorage]) returns, in store order, the entries whose whole
    value starts with [xoxb-] or [xoxp-] and differs from the active
    credential.  Neither returns the active credential, and on the store
    [{a: "xoxb-123abc"}] with no active credential both return that one
    entry. *)
Theorem C2_token_scan :
  forall (st : Storage.t) (token : string),
    Storage.wf st ->
    TokenShape.ScannedKeyed token st (TokenScan.scanForTokens st token)
    /\ (forall out, TokenShape.ScannedKeyed token st out ->
                    out = TokenScan.scanForTokens st token)
    /\ (Forall (fun kv => fst kv <> "") st ->
        TokenShape.Scanned token st (TokenScan.scanForTokens st token))
    /\ TokenScan.scanLocalStorage st token = filter (TokenShape.keptWhole token) st
    /\ (forall k m, In (k, m) (TokenScan.scanForTokens st token) -> m <> token)
    /\ (forall k m, In (k, m) (TokenScan.scanLocalStorage st token) -> m <> token)
    /\ TokenScan.scanForTokens [("a", "xoxb-123abc")] "" = [("a", "xoxb-123abc")]
    /\ TokenScan.scanLocalStorage [("a", "xoxb-123abc")] "" = [("a", "xoxb-123abc")].
Proof.
  intros st token Hwf.
  pose proof (scanForTokens_ScannedKeyed st token Hwf) as Hscan.
  repeat split; try assumption.
  - intros out Hout. exact (ScannedKeyed_deterministic token st _ _ Hout Hscan).
  - intros Hkeys. now apply keyed_is_scanned.
  - now apply scanLocalStorage_filter.
  - intros k m. exact (ScannedKeyed_excludes token st _ Hscan k m).
  - intros k m. rewrite (scanLocalStorage_filter st token Hwf).
    intros Hin. apply filter_In in Hin as [_ Hkept].
    unfold TokenShape.keptWhole in Hkept. cbn [snd] in Hkept.
    apply andb_true_iff in Hkept as [_ Hne].
    now apply negb_true_iff, String.eqb_neq in Hne.
Qed.

Lemma C2_witness :
  Storage.wf [("a", "xoxb-123abc"); ("theme", "dark"); ("slack_token", "xoxp-9")]
  /\ TokenScan.scanForTokens
       [("a", "xoxb-123abc"); ("theme", "dark"); ("slack_token", "xoxp-9")] "xoxp-9"
     = [("a", "xoxb-123abc")].
Proof.
  assert (Storage.wf [("a", "xoxb-123abc"); ("theme", "dark"); ("slack_token", "xoxp-9")])
    as Hwf.
  { repeat constructor; cbn; intuition discriminate. }
  split; [exact Hwf|].
  symmetry.
  apply (proj1 (proj2 (C2_token_scan _ "xoxp-9" Hwf))).
  apply (TokenShape.Keyed_keep "xoxp-9" "a" "xoxb-123abc" "xoxb-123abc").
  - discriminate.
  - apply regexMatch_Matched. reflexivity.
  - discriminate.
  - apply TokenShape.Keyed_absent; [apply regexMatch_Absent; reflexivity|].
    apply TokenShape.Keyed_active; [apply regexMatch_Matched; reflexivity|].
    constructor.
Defined.

(* ================================================================== *)
(** * Results: the session controller *)
(* ================================================================== *)

Section StorageLaws.

Lemma getItem_setItem_same (st : Storage.t) k v :
  Storage.getItem (Storage.put st k v) k = Some v.
Proof.
  unfold Storage.getItem. induction st as [|[k' v'] st IH]; cbn.
  - now rewrite String.eqb_refl.
  - destruct (k' =? k) eqn:E; cbn; [now rewrite String.eqb_refl | now rewrite E].
Qed.

Lemma getItem_setItem_other (st : Storage.t) k v k' :
  k' <> k -> Storage.getItem (Storage.put st k v) k' = Storage.getItem st k'.
Proof.
  intros Hne. unfold Storage.getItem. induction st as [|[k0 v0] st IH]; cbn.
  - apply not_eq_sym, String.eqb_neq in Hne. now rewrite Hne.
  - destruct (k0 =? k) eqn:E; cbn.
    + apply String.eqb_eq in E. subst k0.
      apply not_eq_sym, String.eqb_neq in Hne. now rewrite Hne.
    + now rewrite IH.
Qed.

Lemma getItem_removeItem_same (st : Storage.t) k :
  Storage.getItem (Storage.removeItem st k) k = None.
Proof.
  unfold Storage.getItem, Storage.removeItem.
  induction st as [|[k' v'] st IH]; cbn; [reflexivity|].
  destruct (k' =? k) eqn:E; cbn; [assumption | now rewrite E].
Qed.

Lemma getItem_removeItem_other (st : Storage.t) k k' :
  k' <> k -> Storage.getItem (Storage.removeItem st k) k' = Storage.getItem st k'.
Proof.
  intros Hne. unfold Storage.getItem, Storage.removeItem.
  induction st as [|[k0 v0] st IH]; cbn; [reflexivity|].
  destruct (k0 =? k) eqn:E; cbn.
  - apply String.eqb_eq in E. subst k0.
    apply not_eq_sym, String.eqb_neq in Hne. now rewrite Hne.
  - now rewrite IH.
Qed.

Lemma setItem_wf (st : Storage.t) k v : Storage.wf st -> Storage.wf (Storage.put st k v).
Proof.
  unfold Storage.wf. induction st as [|[k' v'] st IH]; cbn; intros H.
  - constructor; [intros []|constructor].
  - inversion H as [|? ? Hout Hrest]; subst.
    destruct (k' =? k) eqn:E; cbn.
    + apply String.eqb_eq in E. subst k'. now constructor.
    + constructor; [|auto].
      intros Hin. apply Hout. clear -Hin E.
      induction st as [|[k0 v0] st IH]; cbn in *.
      * destruct Hin as [<-|[]]. now rewrite String.eqb_refl in E.
      * destruct (k0 =? k) eqn:E0; cbn in Hin.
        -- apply String.eqb_eq in E0. subst k0. assumption.
        -- destruct Hin as [<-|Hin]; auto.
Qed.

Lemma removeItem_wf (st : Storage.t) k : Storage.wf st -> Storage.wf (Storage.removeItem st k).
Proof.
  unfold Storage.wf, Storage.removeItem.
  induction st as [|[k' v'] st IH]; cbn; intros H; [constructor|].
  inversion H as [|? ? Hout Hrest]; subst.
  destruct (k' =? k); cbn; auto.
  constructor; auto. intros Hin. apply Hout.
  apply in_map_iff in Hin as [[k0 v0] [<- Hin]]. apply filter_In in Hin as [Hin _].
  now apply (in_map fst) in Hin.
Qed.

End StorageLaws.

Section PersistedPair.
Import App.

Lemma afterRender_localStorage ed before s :
  localStorage (afterRender ed before s) = localStorage s.
Proof.
  unfold afterRender, fetchChannels, suspend.
  repeat match goal with
         | |- context [match ?x with _ => _ end] => destruct x
         end; reflexivity.
Qed.



(** After a verification that succeeded, beside a store that took both
    writes, both keys are stored. *)
Lemma connect_success_writes_both ed w tok (proxy : bool) s payload :
  SlackService.testConnection (fetch w)
    (SlackService.new tok (if proxy then Some DEFAULT_PROXY else None)) = Return payload ->
  write w (localStorage s) "slack_token" tok = None ->
  write w (Storage.put (localStorage s) "slack_token" tok)
        "slack_use_proxy" (boolToString proxy) = None ->
  handleConnectResumed ed w tok proxy s
  = setIsVerifying false
      (setErrorMessage None
         (setShowSettings false
            (match ed with
             | First => setInputToken tok
             | Second => fun x => x
             end
               (setUseProxy proxy
                  (setToken tok
                     (withStorage
                        (Storage.put (Storage.put (localStorage s) "slack_token" tok)
                                     "slack_use_proxy" (boolToString proxy)) s))))))
  /\ Storage.getItem (localStorage (handleConnectResumed ed w tok proxy s)) "slack_token"
     = Some tok
  /\ Storage.getItem (localStorage (handleConnectResumed ed w tok proxy s)) "slack_use_proxy"
     = Some (boolToString proxy).
Proof.
  intros Htest H1 H2.
  assert (handleConnectResumed ed w tok proxy s
          = setIsVerifying false
              (setErrorMessage None
                 (setShowSettings false
                    (match ed with
                     | First => setInputToken tok
                     | Second => fun x => x
                     end
                       (setUseProxy proxy
                          (setToken tok
                             (withStorage
                                (Storage.put (Storage.put (localStorage s) "slack_token" tok)
                                             "slack_use_proxy" (boolToString proxy)) s)))))))
    as Heq.
  { unfold handleConnectResumed, Storage.setItem. rewrite Htest, H1.
    cbn [localStorage withStorage]. rewrite H2. destruct ed; reflexivity. }
  split; [exact Heq|]. rewrite Heq.
  destruct ed; cbn [localStorage setIsVerifying setErrorMessage setShowSettings
                    setInputToken setUseProxy setToken withStorage];
    (split;
     [ rewrite getItem_setItem_other by discriminate; apply getItem_setItem_same
     | apply getItem_setItem_same ]).
Qed.

(** After a logout neither key is stored. *)
Lemma logout_removes_both ed s :
  Storage.getItem (localStorage (handleLogout ed s)) "slack_token" = None
  /\ Storage.getItem (localStorage (handleLogout ed s)) "slack_use_proxy" = None.
Proof.
  unfold handleLogout.
  destruct ed; cbn [localStorage setErrorType setErrorMessage setShowSettings
                    setSelectedChannel setChannels setInputToken setToken withStorage];
    (split;
     [ rewrite getItem_removeItem_other by discriminate; apply getItem_removeItem_same
     | apply getItem_removeItem_same ]).
Qed.












End PersistedPair.



Lemma mocked_takesWrites : App.takesWrites App.mocked.
Proof. intros st k v. reflexivity. Qed.


Section SendWindow.
Import App.

Lemma afterRender_clock ed before s :
  successToast (afterRender ed before s) = successToast s
  /\ timers (afterRender ed before s) = timers s
  /\ now (afterRender ed before s) = now s.
Proof.
  unfold afterRender, fetchChannels, suspend.
  repeat match goal with
         | |- context [match ?x with _ => _ end] => destruct x
         end; repeat split.
Qed.

(** A render that changes none of [token], [useProxy] and [showSettings]
    runs no effect. *)
Lemma afterRender_same ed b s :
  token s = token b -> useProxy s = useProxy b -> showSettings s = showSettings b ->
  afterRender ed (Some b) s = s.
Proof.
  intros Ht Hp Hs. unfold afterRender. rewrite Ht, Hp, Hs.
  rewrite String.eqb_refl, !Bool.eqb_reflx. cbn. destruct ed; reflexivity.
Qed.

Lemma step_without_effects ed s ev s1 :
  handle ed ev s = Some s1 ->
  token s1 = token s -> useProxy s1 = useProxy s -> showSettings s1 = showSettings s ->
  step ed s ev = Some s1.
Proof.
  intros Hh Ht Hp Hs. unfold step. rewrite Hh. cbn [option_map].
  now rewrite afterRender_same.
Qed.

Lemma Forall_removeNth {A} (P : A -> Prop) i l : Forall P l -> Forall P (removeNth i l).
Proof.
  revert i. induction l as [|x l IH]; intros i H; [destruct i; constructor|].
  inversion H; subst. destruct i; cbn; auto.
Qed.

(** What a resumed handler does to the toast, the timers and the clock:
    nothing, or (a send that succeeded) it raises the toast and sets a
    timer [TOAST_MS] ahead. *)
Lemma resume_clock ed w p s :
  now (resume ed w p s) = now s
  /\ ((successToast (resume ed w p s) = successToast s
       /\ timers (resume ed w p s) = timers s)
      \/ (successToast (resume ed w p s) = true
          /\ timers (resume ed w p s) = (timers s ++ [now s + TOAST_MS])%list)).
Proof.
  destruct p as [tok proxy|svc|svc cid text|msg tone]; cbn [resume].
  - unfold handleConnectResumed, connectFailed, Storage.setItem.
    destruct (SlackService.testConnection _ _) as [v|err];
      [|destruct (Js.message err =? "CORS_ERROR"); split; auto].
    destruct (write w _ _ _) as [e1|];
      [destruct (Js.message e1 =? "CORS_ERROR"); split; auto|].
    destruct (write w _ _ _) as [e2|];
      [destruct (Js.message e2 =? "CORS_ERROR"); split; auto|].
    destruct ed; split; auto.
  - unfold fetchChannelsResumed.
    destruct (SlackService.fetchChannels _ _) as [v|err]; [split; auto|].
    destruct (Js.message err =? "CORS_ERROR"); split; auto.
  - unfold handleSendMessageResumed, sendFailed.
    destruct (SlackService.sendMessage _ _ _ _) as [v|err].
    + destruct ed; split; auto.
    + split; auto.
  - unfold refineWithAIResumed.
    destruct (refineMessage w msg (Some tone)); split; auto.
Qed.

Lemma handle_clock ed ev s s' :
  handle ed ev s = Some s' ->
  now s <= now s'
  /\ ((successToast s' = successToast s /\ timers s' = timers s)
      \/ (successToast s' = true
          /\ timers s' = (timers s ++ [now s + TOAST_MS])%list /\ now s' = now s)
      \/ (exists i due,
             nth_error (timers s) i = Some due /\ due <= now s
             /\ timers s' = removeNth i (timers s) /\ now s' = now s)).
Proof.
  intros Hh. destruct ev; cbn in Hh;
    try (injection Hh as <-; split; [cbn; lia | left; split; reflexivity]).
  - destruct (channels s); try discriminate.
    destruct (nth_error items i); [|discriminate]. injection Hh as <-. auto.
  - destruct ed; [discriminate|]. injection Hh as <-. auto.
  - injection Hh as <-. unfold handleConnect, suspend.
    destruct (trim targetToken =? ""); [destruct ed|]; auto.
  - injection Hh as <-. unfold handleLogout. destruct ed; auto.
  - injection Hh as <-. unfold fetchChannels, suspend. destruct (service s); auto.
  - injection Hh as <-. unfold handleSendMessage, suspend, sendFailed.
    repeat match goal with
           | |- context [match ?x with _ => _ end] => destruct x
           end; auto.
  - injection Hh as <-. unfold refineWithAI, suspend. destruct (message s =? ""); auto.
  - destruct ed; [|discriminate]. injection Hh as <-. auto.
  - destruct (nth_error (inflight s) i) as [p|]; [|discriminate]. injection Hh as <-.
    destruct (resume_clock ed w p (withInflight (removeNth i (inflight s)) s))
      as [Hnow [[Ht Hti]|[Ht Hti]]]; rewrite Hnow, Ht, Hti; cbn.
    + split; [lia | left; auto].
    + split; [lia | right; left; auto].
  - destruct (nth_error (timers s) i) as [due|] eqn:En; [|discriminate].
    destruct (due <=? now s)%nat eqn:El; [|discriminate]. injection Hh as <-.
    apply Nat.leb_le in El. split; [cbn; lia|]. right. right. exists i, due. auto.
Qed.

Lemma step_toastHeld since ed s ev s' :
  toastHeld since s -> step ed s ev = Some s' -> toastHeld since s'.
Proof.
  intros (Hsince & Hdue & Hshown) Hstep. unfold step in Hstep.
  destruct (handle ed ev s) as [s1|] eqn:Hh; [|discriminate].
  injection Hstep as <-.
  destruct (afterRender_clock ed (Some s) s1) as (Ea & Eb & Ec).
  unfold toastHeld. rewrite Ea, Eb, Ec.
  destruct (handle_clock ed ev s s1 Hh) as [Hmono Hcases].
  split; [lia|].
  destruct Hcases as [[Ht Hti]|[(Ht & Hti & Hn)|(i & due & Hnth & Hle & Hti & Hn)]].
  - rewrite Ht, Hti. split; [assumption|]. intros Hlt. apply Hshown. lia.
  - rewrite Ht, Hti. split; [|reflexivity].
    apply Forall_app. split; [assumption|]. constructor; [lia|constructor].
  - rewrite Hti. split; [now apply Forall_removeNth|].
    intros Hlt. exfalso.
    rewrite Forall_forall in Hdue. apply nth_error_In in Hnth.
    specialize (Hdue due Hnth). lia.
Qed.

Lemma run_toastHeld since ed evs : forall s s',
  toastHeld since s -> run ed s evs = Some s' -> toastHeld since s'.
Proof.
  induction evs as [|ev evs IH]; intros s s' Hinv Hrun; cbn in Hrun.
  - now injection Hrun as <-.
  - destruct (step ed s ev) as [s1|] eqn:Hstep; [|discriminate].
    exact (IH s1 s' (step_toastHeld since ed s ev s1 Hinv Hstep) Hrun).
Qed.

(** The state in which a send that succeeded leaves the page. *)
Lemma send_success_step ed w s i svc cid text payload :
  nth_error (inflight s) i = Some (Sending svc cid text) ->
  SlackService.sendMessage (fetch w) svc cid text = Return payload ->
  step ed s (Resume i w)
  = Some (handleSendMessageResumed ed w svc cid text
            (withInflight (removeNth i (inflight s)) s)).
Proof.
  intros Hi Hsend. apply step_without_effects.
  - cbn [handle]. rewrite Hi. reflexivity.
  - unfold handleSendMessageResumed. rewrite Hsend. destruct ed; reflexivity.
  - unfold handleSendMessageResumed. rewrite Hsend. destruct ed; reflexivity.
  - unfold handleSendMessageResumed. rewrite Hsend. destruct ed; reflexivity.
Qed.

End SendWindow.

(** C8, as stated, fails: a send that completes while the timer of an
    earlier send is pending has its toast cleared by that timer.  Here a
    second send completes 2000 ms after the first; its toast is cleared
    1000 ms later, not 3000 ms later. *)
Lemma C8_counterexample :
  exists s2 s3,
    App.run App.First (App.mount App.First [])
            [App.Connect "xoxb-1" None; App.Resume 0 App.mocked; App.Resume 0 App.mocked;
             App.PickChannel 0;
             App.TypeMessage "hello"; App.Send; App.Resume 0 App.mocked;
             App.TypeMessage "again"; App.Send; App.Elapse 2000; App.Resume 0 App.mocked]
    = Some s2
    /\ App.now s2 = 2000 /\ App.successToast s2 = true /\ App.message s2 = ""
    /\ App.run App.First s2 [App.Elapse 1000; App.Timeout 0] = Some s3
    /\ App.now s3 = 3000 /\ App.successToast s3 = false
    /\ App.now s3 < App.now s2 + App.TOAST_MS.
Proof.
  eexists. eexists.
  split; [vm_compute; reflexivity|].
  split; [reflexivity|]. split; [reflexivity|]. split; [reflexivity|].
  split; [vm_compute; reflexivity|].
  split; [reflexivity|]. split; [reflexivity|].
  vm_compute. lia.
Qed.

(** C8, amended.  When a send completes successfully the message field is
    emptied, the channel list and the selected channel stay as they are, the
    toast is raised and a timer is set 3000 ms ahead that clears it.  If no
    timer of an earlier send is pending at that moment, the toast stays
    raised until 3000 ms have passed, whatever else happens, and the timer
    then clears it. *)
Theorem C8_send_success :
  forall ed w s i svc cid text payload s',
    nth_error (App.inflight s) i = Some (App.Sending svc cid text) ->
    SlackService.sendMessage (App.fetch w) svc cid text = Return payload ->
    App.step ed s (App.Resume i w) = Some s' ->
    App.message s' = ""
    /\ App.channels s' = App.channels s
    /\ App.selectedChannel s' = App.selectedChannel s
    /\ App.successToast s' = true
    /\ App.now s' = App.now s
    /\ App.timers s' = (App.timers s ++ [App.now s + 3000])%list
    /\ (App.timers s = [] ->
        (forall evs s'',
            App.run ed s' evs = Some s'' ->
            App.now s'' < App.now s + 3000 -> App.successToast s'' = true)
        /\ (exists s3,
               App.run ed s' [App.Elapse 3000; App.Timeout 0] = Some s3
               /\ App.now s3 = App.now s + 3000
               /\ App.successToast s3 = false)).
Proof.
  intros ed w s i svc cid text payload s' Hi Hsend Hstep.
  rewrite (send_success_step ed w s i svc cid text payload Hi Hsend) in Hstep.
  injection Hstep as <-.
  unfold App.handleSendMessageResumed. rewrite Hsend.
  set (s' := match ed with
             | App.First => _
             | App.Second => _
             end).
  assert (App.message s' = "" /\ App.channels s' = App.channels s
          /\ App.selectedChannel s' = App.selectedChannel s
          /\ App.successToast s' = true /\ App.now s' = App.now s
          /\ App.timers s' = (App.timers s ++ [App.now s + 3000])%list
          /\ App.token s' = App.token s /\ App.useProxy s' = App.useProxy s
          /\ App.showSettings s' = App.showSettings s) as Hfields.
  { subst s'. destruct ed; repeat split. }
  destruct Hfields as (Hm & Hc & Hsel & Ht & Hn & Hti & _).
  repeat (split; [assumption|]).
  intros Hnone. rewrite Hnone in Hti. cbn [app] in Hti. split.
  - intros evs s'' Hrun Hlt.
    assert (App.toastHeld (App.now s) s') as Hheld.
    { unfold App.toastHeld. rewrite Hn, Hti, Ht. repeat split; auto.
      constructor; [unfold App.TOAST_MS; lia | constructor]. }
    destruct (run_toastHeld (App.now s) ed evs s' s'' Hheld Hrun) as (_ & _ & Hshown).
    apply Hshown. unfold App.TOAST_MS. lia.
  - set (s1 := App.withNow (App.now s' + 3000) s').
    exists (App.setSuccessToast false (App.withTimers [] s1)).
    assert (App.handle ed (App.Timeout 0) s1
            = Some (App.setSuccessToast false (App.withTimers [] s1))) as Hfire.
    { cbn [App.handle].
      replace (App.timers s1) with [App.now s + 3000] by (symmetry; exact Hti).
      cbn [nth_error App.removeNth].
      replace (App.now s1) with (App.now s + 3000) by (cbn; now rewrite Hn).
      now rewrite Nat.leb_refl. }
    cbn [App.run].
    rewrite (step_without_effects ed s' (App.Elapse 3000) s1 eq_refl eq_refl eq_refl eq_refl).
    rewrite (step_without_effects ed s1 (App.Timeout 0) _ Hfire eq_refl eq_refl eq_refl).
    repeat split. cbn. now rewrite Hn.
Qed.

Lemma C8_witness :
  exists s s',
    App.run App.Second (App.mount App.Second [])
            [App.Connect "xoxb-1" None; App.Resume 0 App.mocked; App.Resume 0 App.mocked;
             App.PickChannel 0; App.TypeMessage "hello"; App.Send] = Some s
    /\ App.step App.Second s (App.Resume 0 App.mocked) = Some s'
    /\ App.message s = "hello"
    /\ App.message s' = ""
    /\ App.channels s' = App.twoChannels
    /\ App.successToast s' = true
    /\ App.timers s' = [3000].
Proof.
  eexists. eexists.
  split; [vm_compute; reflexivity|].
  match goal with |- App.step _ ?s0 _ = _ /\ _ => set (s := s0) end.
  split; [vm_compute; reflexivity|].
  match goal with |- _ /\ App.message ?s0 = _ /\ _ => set (s' := s0) end.
  split; [reflexivity|].
  destruct (C8_send_success App.Second App.mocked s 0 _ _ _ _ s'
              eq_refl eq_refl eq_refl) as (Hm & Hc & _ & Ht & _ & Hti & _).
  split; [exact Hm|]. split; [exact Hc|]. split; [exact Ht|]. exact Hti.
Defined.

(* ================================================================== *)
(** * Further results: the messaging client *)
(* ================================================================== *)

Section Trim.

Lemma trimStart_first s : spaceAt (firstChar (trimStart s)) = false.
Proof.
  induction s as [|c s IH]; cbn; [reflexivity|].
  destruct (is_space c) eqn:E; [assumption | cbn; assumption].
Qed.

Lemma trimStart_fixed s : spaceAt (firstChar s) = false -> trimStart s = s.
Proof. destruct s as [|c s]; cbn; [reflexivity|]. now intros ->. Qed.

Lemma trimEnd_first s : spaceAt (firstChar s) = false -> firstChar (trimEnd s) = firstChar s.
Proof. destruct s as [|c s]; cbn; [reflexivity|]. now intros ->. Qed.

Lemma trimEnd_last s : spaceAt (lastChar (trimEnd s)) = false.
Proof.
  induction s as [|c s IH]; cbn; [reflexivity|].
  destruct (is_space c) eqn:Ec; cbn [andb].
  - destruct (trimEnd s) as [|d r] eqn:Er; cbn; [reflexivity|]. exact IH.
  - destruct (trimEnd s) as [|d r] eqn:Er; cbn; [assumption|]. exact IH.
Qed.

Lemma trimEnd_idempotent s : trimEnd (trimEnd s) = trimEnd s.
Proof.
  induction s as [|c s IH]; cbn; [reflexivity|].
  destruct (is_space c && (trimEnd s =? ""))%bool eqn:E; [reflexivity|].
  cbn. now rewrite IH, E.
Qed.

Lemma trim_idempotent s : trim (trim s) = trim s.
Proof.
  unfold trim.
  rewrite (trimStart_fixed (trimEnd (trimStart s))).
  - apply trimEnd_idempotent.
  - rewrite trimEnd_first; apply trimStart_first.
Qed.

Lemma trim_ends s :
  spaceAt (firstChar (trim s)) = false /\ spaceAt (lastChar (trim s)) = false.
Proof.
  unfold trim. split; [|apply trimEnd_last].
  rewrite trimEnd_first; apply trimStart_first.
Qed.

End Trim.

Lemma lookup_app {A} name (a b : list (string * A)) :
  lookup name (a ++ b)
  = match lookup name a with
    | Some v => Some v
    | None => lookup name b
    end.
Proof.
  induction a as [|[k v] a IH]; cbn; [reflexivity|].
  destruct (k =? name); [reflexivity | exact IH].
Qed.

Lemma lookup_spread name base extra :
  lookup name (SlackService.spread base extra)
  = match lookup name extra with
    | Some v => Some v
    | None => lookup name base
    end.
Proof.
  unfold SlackService.spread. rewrite lookup_app.
  destruct (lookup name extra) as [w|] eqn:En.
  - replace (lookup name (filter _ base)) with (@None string); [reflexivity|].
    induction base as [|[k v] base IH]; cbn; [reflexivity|].
    destruct (lookup k extra) as [x|] eqn:Ek; cbn; [exact IH|].
    destruct (k =? name) eqn:E; [|exact IH].
    apply String.eqb_eq in E. subst k. congruence.
  - induction base as [|[k v] base IH]; cbn; [reflexivity|].
    destruct (lookup k extra) as [x|] eqn:Ek; cbn.
    + destruct (k =? name) eqn:E; [|exact IH].
      apply String.eqb_eq in E. subst k. congruence.
    + destruct (k =? name); [reflexivity | exact IH].
Qed.

Lemma request_returned (fetch : SlackService.Transport) svc endpoint options data :
  SlackService.request fetch svc endpoint options = Return data ->
  exists response flag,
    fetch (SlackService.fetchCall svc endpoint options) = SlackService.Resolves response
    /\ SlackService.ok response = true
    /\ SlackService.json response = Return data
    /\ get data "ok" = Return flag
    /\ truthy flag = true.
Proof.
  unfold SlackService.request, SlackService.requestAttempt.
  destruct (fetch _) as [reason|response] eqn:Ef; [discriminate|].
  destruct (SlackService.ok response) eqn:Eok; cbn [negb]; [|discriminate].
  destruct (SlackService.json response) as [d|e] eqn:Ej; cbn [bind].
  2: { cbn. destruct (instanceofTypeError e); discriminate. }
  destruct (get d "ok") as [flag|e] eqn:Eg; cbn [bind].
  2: { cbn. destruct (instanceofTypeError e); discriminate. }
  destruct (truthy flag) eqn:Et; cbn [negb].
  - cbn. intros [= <-]. exists response, flag. auto.
  - destruct (get d "error") as [err|e]; cbn [bind].
    + destruct (newError _) as [e'|e']; cbn;
        destruct (instanceofTypeError _); discriminate.
    + cbn. destruct (instanceofTypeError e); discriminate.
Qed.

Lemma get_truthy_is_field data name flag :
  get data name = Return flag -> truthy flag = true ->
  exists fields, data = Obj fields /\ lookup name fields = Some flag.
Proof.
  destruct data; cbn; try discriminate; try (intros [= <-]; discriminate).
  destruct (lookup name fields) as [x|] eqn:E.
  - intros [= <-] _. eauto.
  - intros [= <-]. discriminate.
Qed.

(** X1. [request] returns a payload exactly when the call came back with a
    status in 200..299, the body decoded, and the decoded value has a
    truthy [ok]; what it returns is that decoded value. *)
Theorem X1_request_returns_exactly_the_accepted_payload :
  forall (fetch : SlackService.Transport) svc endpoint options data,
    SlackService.request fetch svc endpoint options = Return data
    <-> exists response flag,
        fetch (SlackService.fetchCall svc endpoint options) = SlackService.Resolves response
        /\ SlackService.ok response = true
        /\ SlackService.json response = Return data
        /\ get data "ok" = Return flag
        /\ truthy flag = true.
Proof.
  intros fetch svc endpoint options data. split; [apply request_returned|].
  intros (response & flag & Ef & Eok & Ej & Eg & Et).
  unfold SlackService.request, SlackService.requestAttempt.
  rewrite Ef, Eok. cbn [negb]. rewrite Ej. cbn [bind]. rewrite Eg. cbn [bind].
  now rewrite Et.
Qed.

(** X2. No TypeError leaves [request]: whatever it throws fails the test
    [instanceof TypeError]. *)
Theorem X2_request_never_throws_a_TypeError :
  forall (fetch : SlackService.Transport) svc endpoint options e,
    SlackService.request fetch svc endpoint options = Throw e ->
    instanceofTypeError e = false.
Proof.
  intros fetch svc endpoint options e. unfold SlackService.request.
  destruct (SlackService.requestAttempt fetch svc endpoint options) as [d|e0];
    cbn; [discriminate|].
  destruct (instanceofTypeError e0) eqn:E; intros [= <-]; [reflexivity | exact E].
Qed.

Lemma X2_witness :
  let fetch : SlackService.Transport :=
    fun _ => SlackService.Resolves {| SlackService.status := 200;
                                      SlackService.json :=
                                        Throw (mkError TypeError "body stream already read") |} in
  SlackService.request fetch (SlackService.new "xoxb-1" None) "auth.test"
                       SlackService.noOptions
  = Throw (mkError PlainError "CORS_ERROR")
  /\ instanceofTypeError (mkError PlainError "CORS_ERROR") = false.
Proof.
  intros fetch. split; [reflexivity|].
  exact (X2_request_never_throws_a_TypeError
           fetch (SlackService.new "xoxb-1" None) "auth.test" SlackService.noOptions
           _ eq_refl).
Defined.

(** X3. A response with a good status whose body is the JSON value [null]
    is reported like a blocked transport: reading [data.ok] raises a
    TypeError inside the [try] block. *)
Theorem X3_null_body_is_reported_as_blocked :
  forall (fetch : SlackService.Transport) svc endpoint options response,
    fetch (SlackService.fetchCall svc endpoint options) = SlackService.Resolves response ->
    SlackService.ok response = true ->
    SlackService.json response = Return Null ->
    SlackService.request fetch svc endpoint options = Throw (mkError PlainError "CORS_ERROR")
    /\ App.classify (SlackService.request fetch svc endpoint options) = App.TransportBlocked.
Proof.
  intros fetch svc endpoint options response Ef Eok Ej.
  unfold SlackService.request, SlackService.requestAttempt.
  rewrite Ef, Eok, Ej. split; reflexivity.
Qed.

Lemma X3_witness :
  App.classify (SlackService.request (SlackService.answering Null)
                                     (SlackService.new "xoxb-1" None) "auth.test"
                                     SlackService.noOptions)
  = App.TransportBlocked.
Proof.
  exact (proj2 (X3_null_body_is_reported_as_blocked
                  (SlackService.answering Null) (SlackService.new "xoxb-1" None)
                  "auth.test" SlackService.noOptions _ eq_refl eq_refl eq_refl)).
Defined.

(** X4. The constructor keeps the credential trimmed: the stored token has
    white space at neither end, and a credential that differs only by
    surrounding white space gives the same service. *)
Theorem X4_constructor_trims_the_credential :
  forall credential proxy,
    spaceAt (firstChar (SlackService.token (SlackService.new credential proxy))) = false
    /\ spaceAt (lastChar (SlackService.token (SlackService.new credential proxy))) = false
    /\ SlackService.new (trim credential) proxy = SlackService.new credential proxy.
Proof.
  intros credential proxy. unfold SlackService.new. cbn [SlackService.token].
  destruct (trim_ends credential) as [Hf Hl].
  repeat split; try assumption. now rewrite trim_idempotent.
Qed.

(** X5. In the headers sent, a header the caller passes replaces the
    default of the same name, and the defaults are the bearer token and the
    JSON content type; with no caller header the request carries exactly
    those two. *)
Theorem X5_request_headers :
  forall svc endpoint options name,
    lookup name (SlackService.headers
                   (SlackService.init (SlackService.fetchCall svc endpoint options)))
    = match lookup name (SlackService.headers options) with
      | Some v => Some v
      | None =>
          if "Authorization" =? name then Some ("Bearer " ++ SlackService.token svc)
          else if "Content-Type" =? name then Some "application/json; charset=utf-8"
          else None
      end.
Proof.
  intros svc endpoint options name.
  cbn [SlackService.fetchCall SlackService.init SlackService.headers].
  unfold SlackService.requestHeaders. rewrite lookup_spread. reflexivity.
Qed.

(** X6. [fetchChannels] fails exactly as its request fails; when the
    request returns, the payload is an object and the result is its
    [channels] field as it is, or the empty list when that field is missing
    or falsy. *)
Theorem X6_fetchChannels_outcome :
  forall (fetch : SlackService.Transport) svc,
    let listing :=
      SlackService.request fetch svc
        "conversations.list?types=public_channel,private_channel&limit=100"
        SlackService.noOptions in
    (forall e, listing = Throw e <-> SlackService.fetchChannels fetch svc = Throw e)
    /\ (forall data,
          listing = Return data ->
          exists fields,
            data = Obj fields
            /\ SlackService.fetchChannels fetch svc
               = Return (match lookup "channels" fields with
                         | Some list => if truthy list then list else Arr []
                         | None => Arr []
                         end)).
Proof.
  intros fetch svc listing.
  assert (forall data, listing = Return data ->
          exists fields,
            data = Obj fields
            /\ SlackService.fetchChannels fetch svc
               = Return (match lookup "channels" fields with
                         | Some list => if truthy list then list else Arr []
                         | None => Arr []
                         end)) as Hret.
  { intros data Hd.
    destruct (request_returned _ _ _ _ _ Hd) as (response & flag & _ & _ & _ & Hg & Ht).
    destruct (get_truthy_is_field data "ok" flag Hg Ht) as (fields & -> & _).
    exists fields. split; [reflexivity|].
    unfold SlackService.fetchChannels. fold listing. rewrite Hd. cbn [bind get].
    destruct (lookup "channels" fields) as [list|]; reflexivity. }
  split; [|exact Hret].
  intros e. split.
  - apply fetchChannels_propagates.
  - destruct listing as [data|e0] eqn:El.
    + destruct (Hret data eq_refl) as (fields & _ & ->). discriminate.
    + rewrite (fetchChannels_propagates fetch svc e0 El). now intros [= <-].
Qed.

(* ================================================================== *)
(** * Further results: the refinement client *)
(* ================================================================== *)

(** X7. The copy of part_001 never raises and calls the network at most
    once: with the key unset it calls nothing and returns the input; with a
    key it calls once and returns the generated text when that is not empty,
    the input otherwise (failed call, no text, empty text). *)
Theorem X7_guarded_refine :
  forall env ai message tone,
    let key :=
      match get (GeminiService_part001.safeEnv env) "API_KEY" with
      | Return key => key
      | Throw _ => Undefined
      end in
    let call := GeminiService_part001.call key message (Gemini.toneOrDefault tone) in
    let done := GeminiService_part001.refineMessage env ai message tone in
    Gemini.networkCalls (fst done) = (if truthy key then 1 else 0)
    /\ snd done
       = Return (if truthy key
                 then match ai call with
                      | Gemini.GenResolves (Some text) => if text =? "" then message else text
                      | _ => message
                      end
                 else message).
Proof.
  intros env ai message tone.
  destruct (safeEnv_key env) as [k Hk]. rewrite Hk. cbv zeta.
  destruct (truthy k) eqn:Ht.
  - destruct (ai (GeminiService_part001.call k message (Gemini.toneOrDefault tone)))
      as [e|text] eqn:Ha.
    + rewrite (part001_generation_error env ai message tone k e Hk Ht Ha). split; reflexivity.
    + rewrite (part001_response env ai message tone k text Hk Ht Ha).
      split; [reflexivity|]. cbn [snd]. unfold Gemini.textOr.
      destruct text as [t|]; [|reflexivity]. now destruct (t =? "").
  - rewrite (part001_missing_key env ai message tone k Hk Ht). split; reflexivity.
Qed.

(** X8. The copy of part_000 calls the network exactly once, raises
    exactly when that call fails, with the same error, and otherwise returns
    the generated text when that is not empty and the input when it is
    missing or empty. *)
Theorem X8_unguarded_refine :
  forall this ai message tone,
    let call := GeminiService_part000.call this message (Gemini.toneOrDefault tone) in
    let done := GeminiService_part000.refineMessage this ai message tone in
    Gemini.networkCalls (fst done) = 1
    /\ (forall e, snd done = Throw e <-> ai call = Gemini.GenRejects e)
    /\ (forall text,
          ai call = Gemini.GenResolves text ->
          snd done = Return (match text with
                             | Some t => if t =? "" then message else t
                             | None => message
                             end)).
Proof.
  intros this ai message tone. cbv zeta.
  destruct (ai (GeminiService_part000.call this message (Gemini.toneOrDefault tone)))
    as [e0|text0] eqn:Ha.
  - rewrite (part000_generation_error ai message tone this e0 Ha).
    repeat split; try discriminate.
    + now intros [= <-].
    + now intros [= <-].
  - rewrite (part000_response ai message tone this text0 Ha).
    repeat split; try discriminate.
    intros text [= <-]. cbn [snd]. unfold Gemini.textOr.
    destruct text0 as [t|]; [|reflexivity]. now destruct (t =? "").
Qed.

(* ================================================================== *)
(** * Further results: the session controller *)
(* ================================================================== *)

Section Session.
Import App.

Lemma afterRender_frame ed before s :
  token (afterRender ed before s) = token s
  /\ useProxy (afterRender ed before s) = useProxy s
  /\ showSettings (afterRender ed before s) = showSettings s
  /\ message (afterRender ed before s) = message s
  /\ channels (afterRender ed before s) = channels s
  /\ selectedChannel (afterRender ed before s) = selectedChannel s
  /\ errorMessage (afterRender ed before s) = errorMessage s
  /\ errorType (afterRender ed before s) = errorType s
  /\ isVerifying (afterRender ed before s) = isVerifying s
  /\ isRefining (afterRender ed before s) = isRefining s.
Proof.
  unfold afterRender, fetchChannels, suspend.
  repeat match goal with
         | |- context [match ?x with _ => _ end] => destruct x
         end; repeat split.
Qed.

Lemma initial_token st : token (initial st) = persistedToken st.
Proof.
  unfold initial, persistedToken. cbn [token].
  destruct (Storage.getItem st "slack_token") as [v|]; [|reflexivity].
  destruct (v =? "") eqn:E; cbn [negb]; [|reflexivity].
  apply String.eqb_eq in E. now subst.
Qed.

(** What a resumed handler does to the session: it leaves the token and
    the store alone, or (a verification that succeeded) it stores the token
    it sets, or (a write was refused) it leaves the token alone. *)
Lemma resume_session ed w p s :
  discoveredTokens (resume ed w p s) = discoveredTokens s
  /\ ((token (resume ed w p s) = token s
       /\ localStorage (resume ed w p s) = localStorage s)
      \/ Storage.getItem (localStorage (resume ed w p s)) "slack_token"
         = Some (token (resume ed w p s))
      \/ ~ takesWrites w).
Proof.
  destruct p as [tok proxy|svc|svc cid text|msg tone]; cbn [resume].
  - unfold handleConnectResumed, connectFailed, Storage.setItem.
    destruct (SlackService.testConnection _ _) as [payload|err];
      [|destruct (Js.message err =? "CORS_ERROR"); split; auto].
    destruct (write w (localStorage s) "slack_token" tok) as [e1|] eqn:E1.
    { split; [destruct (Js.message e1 =? "CORS_ERROR"); reflexivity|].
      right. right. intros Hw. rewrite Hw in E1. discriminate. }
    cbn [localStorage withStorage].
    destruct (write w (Storage.put (localStorage s) "slack_token" tok) _ _) as [e2|] eqn:E2.
    { split; [destruct (Js.message e2 =? "CORS_ERROR"); reflexivity|].
      right. right. intros Hw. rewrite Hw in E2. discriminate. }
    split; [destruct ed; reflexivity|]. right. left.
    destruct ed; cbn [localStorage token setIsVerifying setErrorMessage setShowSettings
                      setInputToken setUseProxy setToken withStorage];
      rewrite getItem_setItem_other by discriminate; apply getItem_setItem_same.
  - unfold fetchChannelsResumed.
    destruct (SlackService.fetchChannels (fetch w) svc) as [v|err]; [split; auto|].
    destruct (Js.message err =? "CORS_ERROR"); split; auto.
  - unfold handleSendMessageResumed, sendFailed.
    destruct (SlackService.sendMessage (fetch w) svc cid text); [destruct ed|]; split; auto.
  - unfold refineWithAIResumed.
    destruct (refineMessage w msg (Some tone)); split; auto.
Qed.

Lemma handle_session ed ev s s1 :
  handle ed ev s = Some s1 ->
  (discoveredTokens s1 = discoveredTokens s \/ discoveredTokens s1 = scan ed s1)
  /\ ((token s1 = token s /\ localStorage s1 = localStorage s)
      \/ (token s1 = "" /\ Storage.getItem (localStorage s1) "slack_token" = None)
      \/ Storage.getItem (localStorage s1) "slack_token" = Some (token s1)
      \/ ~ unhindered [ev]).
Proof.
  intros Hh. destruct ev; cbn in Hh;
    try (injection Hh as <-; split; [left; reflexivity | left; split; reflexivity]).
  - destruct (channels s); try discriminate.
    destruct (nth_error items i); [|discriminate]. injection Hh as <-. auto.
  - destruct ed; [discriminate|]. injection Hh as <-. auto.
  - injection Hh as <-. unfold handleConnect, suspend.
    destruct (trim targetToken =? ""); [destruct ed|]; auto.
  - injection Hh as <-. split.
    + unfold handleLogout. destruct ed; auto.
    + right. left. split; [unfold handleLogout; destruct ed; reflexivity|].
      apply logout_removes_both.
  - injection Hh as <-. unfold fetchChannels, suspend. destruct (service s); auto.
  - injection Hh as <-. unfold handleSendMessage, suspend, sendFailed.
    repeat match goal with
           | |- context [match ?x with _ => _ end] => destruct x
           end; auto.
  - injection Hh as <-. unfold refineWithAI, suspend. destruct (message s =? ""); auto.
  - destruct ed; [|discriminate]. injection Hh as <-. split; [right; reflexivity | auto].
  - destruct (nth_error (inflight s) i) as [p|]; [|discriminate]. injection Hh as <-.
    destruct (resume_session ed w p (withInflight (removeNth i (inflight s)) s))
      as [Hd [[Ht Hst]|[Hst|Hw]]].
    + split; [left; exact Hd | left; split; assumption].
    + split; [left; exact Hd | right; right; left; exact Hst].
    + split; [left; exact Hd | right; right; right].
      intros Hev. inversion Hev as [|? ? Hhead _]; subst. exact (Hw Hhead).
  - destruct (nth_error (timers s) i) as [due|]; [|discriminate].
    destruct (due <=? now s)%nat; [|discriminate]. injection Hh as <-. auto.
Qed.

Lemma step_token_mirrors_store ed s ev s' :
  unhindered [ev] ->
  token s = persistedToken (localStorage s) ->
  step ed s ev = Some s' ->
  token s' = persistedToken (localStorage s').
Proof.
  intros Hev Hinv Hstep. unfold step in Hstep.
  destruct (handle ed ev s) as [s1|] eqn:Hh; [|discriminate]. injection Hstep as <-.
  destruct (afterRender_frame ed (Some s) s1) as (Et & _).
  rewrite Et, afterRender_localStorage.
  destruct (handle_session ed ev s s1 Hh) as [_ [[Ht Hst]|[[Ht Hst]|[Hst|Hno]]]].
  - now rewrite Ht, Hst.
  - unfold persistedToken. now rewrite Ht, Hst.
  - unfold persistedToken. now rewrite Hst.
  - elim (Hno Hev).
Qed.

Lemma scan_apart ed s : Forall (fun found => snd found <> token s) (scan ed s).
Proof.
  apply Forall_forall. intros [k m] Hin. cbn [snd].
  unfold scan in Hin. destruct ed.
  - unfold TokenScan.scanForTokens in Hin. apply in_flat_map in Hin as (i & _ & Hin).
    unfold TokenScan.scanForTokensAt in Hin.
    repeat match type of Hin with
           | In _ (match ?x with _ => _ end) => destruct x eqn:?
           end; cbn in Hin; try contradiction.
    destruct Hin as [[= <- <-]|[]].
    match goal with
    | H : negb (_ =? _) = true |- _ => now apply negb_true_iff, String.eqb_neq in H
    end.
  - unfold TokenScan.scanLocalStorage in Hin. apply in_flat_map in Hin as (i & _ & Hin).
    unfold TokenScan.scanLocalStorageAt in Hin.
    repeat match type of Hin with
           | In _ (match ?x with _ => _ end) => destruct x eqn:?
           end; cbn in Hin; try contradiction.
    destruct Hin as [[= <- <-]|[]].
    match goal with
    | H : (_ && negb (_ =? _))%bool = true |- _ =>
        apply andb_true_iff in H as [_ H]; now apply negb_true_iff, String.eqb_neq in H
    end.
Qed.

Lemma afterRender_discovered ed b s1 :
  discoveredTokens (afterRender ed (Some b) s1)
  = if negb (token b =? token s1) then scan ed s1 else discoveredTokens s1.
Proof.
  unfold afterRender, fetchChannels, suspend.
  destruct (negb (token b =? token s1));
    repeat match goal with
           | |- context [match ?x with _ => _ end] => destruct x
           end; reflexivity.
Qed.

Lemma step_discoveredApart ed s ev s' :
  discoveredApart s -> step ed s ev = Some s' -> discoveredApart s'.
Proof.
  intros Hinv Hstep. unfold step in Hstep.
  destruct (handle ed ev s) as [s1|] eqn:Hh; [|discriminate]. injection Hstep as <-.
  unfold discoveredApart.
  destruct (afterRender_frame ed (Some s) s1) as (Et & _).
  rewrite Et, afterRender_discovered.
  destruct (token s =? token s1) eqn:E; cbn [negb]; [|apply scan_apart].
  apply String.eqb_eq in E.
  destruct (handle_session ed ev s s1 Hh) as [[Hd|Hd] _]; rewrite Hd.
  - rewrite <- E. exact Hinv.
  - apply scan_apart.
Qed.

Lemma mount_discoveredApart ed st : discoveredApart (mount ed st).
Proof.
  unfold discoveredApart, mount.
  destruct (afterRender_frame ed None (initial st)) as (Et & _). rewrite Et.
  assert (discoveredTokens (afterRender ed None (initial st)) = scan ed (initial st)) as ->.
  { unfold afterRender, fetchChannels, suspend. cbn [negb orb].
    repeat match goal with
           | |- context [match ?x with _ => _ end] => destruct x
           end; reflexivity. }
  apply scan_apart.
Qed.

End Session.

(** X9. In every state the page reaches, from any store, by a run in
    which the store takes every write, the token it holds is the persisted
    one ([slack_token], or the empty string when the key is absent). *)
Theorem X9_token_mirrors_the_store :
  forall ed st evs s,
    App.unhindered evs ->
    App.run ed (App.mount ed st) evs = Some s ->
    App.token s = App.persistedToken (App.localStorage s).
Proof.
  intros ed st evs.
  assert (App.token (App.mount ed st) = App.persistedToken (App.localStorage (App.mount ed st)))
    as Hstart.
  { unfold App.mount.
    destruct (afterRender_frame ed None (App.initial st)) as (Et & _).
    rewrite Et, afterRender_localStorage. apply initial_token. }
  revert Hstart. generalize (App.mount ed st).
  induction evs as [|ev evs IH]; intros s0 Hinv s Hevs Hrun; cbn in Hrun.
  - now injection Hrun as <-.
  - destruct (App.step ed s0 ev) as [s1|] eqn:Hstep; [|discriminate].
    inversion Hevs as [|? ? Hhead Htail]; subst.
    apply (IH s1); try assumption.
    apply (step_token_mirrors_store ed s0 ev s1); try assumption.
    constructor; [exact Hhead | constructor].
Qed.

Lemma X9_witness :
  exists s,
    App.run App.First (App.mount App.First [("slack_token", "xoxb-0"); ("slack_use_proxy", "false")])
            [App.Connect " xoxb-1 " None; App.Resume 1 App.mocked; App.ToggleProxy] = Some s
    /\ App.token s = App.persistedToken (App.localStorage s).
Proof.
  eexists. split; [vm_compute; reflexivity|].
  apply (X9_token_mirrors_the_store App.First
           [("slack_token", "xoxb-0"); ("slack_use_proxy", "false")]
           [App.Connect " xoxb-1 " None; App.Resume 1 App.mocked; App.ToggleProxy]).
  - constructor; [exact I|]. constructor; [exact mocked_takesWrites|].
    constructor; [exact I | constructor].
  - vm_compute. reflexivity.
Defined.

(** X10. In every state the page reaches, no discovered token is the
    active credential: each scan leaves it out, and the list is scanned
    again whenever the credential changes. *)
Theorem X10_discovered_tokens_leave_out_the_credential :
  forall ed st evs s,
    App.run ed (App.mount ed st) evs = Some s ->
    forall key value, In (key, value) (App.discoveredTokens s) -> value <> App.token s.
Proof.
  intros ed st evs s Hrun key value Hin.
  assert (App.discoveredApart s) as Hs.
  { pose proof (mount_discoveredApart ed st) as Hstart.
    revert Hstart Hrun. generalize (App.mount ed st).
    induction evs as [|ev evs IH]; intros s0 Hinv Hrun; cbn in Hrun.
    - now injection Hrun as <-.
    - destruct (App.step ed s0 ev) as [s1|] eqn:Hstep; [|discriminate].
      exact (IH s1 (step_discoveredApart ed s0 ev s1 Hinv Hstep) Hrun). }
  unfold App.discoveredApart in Hs. rewrite Forall_forall in Hs.
  exact (Hs (key, value) Hin).
Qed.

Lemma X10_witness :
  exists s,
    App.run App.First
            (App.mount App.First [("other", "{t: xoxp-77}"); ("legacy", "xoxb-1")])
            [App.Connect "xoxb-1" None; App.Resume 0 App.mocked] = Some s
    /\ (forall key value, In (key, value) (App.discoveredTokens s) -> value <> App.token s).
Proof.
  eexists. split; [vm_compute; reflexivity|].
  apply (X10_discovered_tokens_leave_out_the_credential App.First
           [("other", "{t: xoxp-77}"); ("legacy", "xoxb-1")]
           [App.Connect "xoxb-1" None; App.Resume 0 App.mocked]).
  vm_compute. reflexivity.
Defined.

Section Handlers.
Import App.

Lemma nth_error_last {A} (l : list A) x : nth_error (l ++ [x]) (List.length l) = Some x.
Proof. induction l as [|y l IH]; cbn; [reflexivity | exact IH]. Qed.

Lemma removeNth_last {A} (l : list A) x : removeNth (List.length l) (l ++ [x]) = l.
Proof. induction l as [|y l IH]; cbn; [reflexivity | now rewrite IH]. Qed.

Lemma boolToString_true b : (boolToString b =? "true") = b.
Proof. destruct b; reflexivity. Qed.

Lemma truthy_has_fields channel name :
  truthy channel = true -> exists v, get channel name = Return v.
Proof.
  destruct channel; cbn; try discriminate; eauto.
  destruct (lookup name fields); eauto.
Qed.

Lemma handle_toast ed ev s s' :
  handle ed ev s = Some s' ->
  (successToast s' = successToast s /\ timers s' = timers s /\ now s <= now s')
  \/ (successToast s' = true
      /\ timers s' = (timers s ++ [now s + TOAST_MS])%list /\ now s' = now s)
  \/ (successToast s' = false
      /\ (exists i, timers s' = removeNth i (timers s)) /\ now s' = now s).
Proof.
  intros Hh. destruct ev; cbn in Hh;
    try (injection Hh as <-; left; repeat split; cbn; lia).
  - destruct (channels s); try discriminate.
    destruct (nth_error items i); [|discriminate]. injection Hh as <-. auto.
  - destruct ed; [discriminate|]. injection Hh as <-. auto.
  - injection Hh as <-. unfold handleConnect, suspend.
    destruct (trim targetToken =? ""); [destruct ed|]; auto.
  - injection Hh as <-. unfold handleLogout. destruct ed; auto.
  - injection Hh as <-. unfold fetchChannels, suspend. destruct (service s); auto.
  - injection Hh as <-. unfold handleSendMessage, suspend, sendFailed.
    repeat match goal with
           | |- context [match ?x with _ => _ end] => destruct x
           end; auto.
  - injection Hh as <-. unfold refineWithAI, suspend. destruct (message s =? ""); auto.
  - destruct ed; [|discriminate]. injection Hh as <-. auto.
  - destruct (nth_error (inflight s) i) as [p|]; [|discriminate]. injection Hh as <-.
    destruct (resume_clock ed w p (withInflight (removeNth i (inflight s)) s))
      as [Hnow [[Ht Hti]|[Ht Hti]]]; rewrite Hnow, Ht, Hti; cbn.
    + left. auto.
    + right. left. auto.
  - destruct (nth_error (timers s) i) as [due|] eqn:En; [|discriminate].
    destruct (due <=? now s)%nat eqn:El; [|discriminate]. injection Hh as <-.
    right. right. cbn. eauto.
Qed.

Lemma step_toastBacked ed s ev s' :
  toastBacked s -> step ed s ev = Some s' -> toastBacked s'.
Proof.
  intros [Hback Hdue] Hstep. unfold step in Hstep.
  destruct (handle ed ev s) as [s1|] eqn:Hh; [|discriminate]. injection Hstep as <-.
  destruct (afterRender_clock ed (Some s) s1) as (Ea & Eb & Ec).
  unfold toastBacked. rewrite Ea, Eb, Ec.
  destruct (handle_toast ed ev s s1 Hh)
    as [(Ht & Hti & Hn)|[(Ht & Hti & Hn)|(Ht & [i Hti] & Hn)]]; rewrite Ht, Hti.
  - split; [assumption|]. eapply Forall_impl; [|exact Hdue]. cbn. intros; lia.
  - split.
    + intros _ Hnil. apply app_eq_nil in Hnil as [_ Hnil]. discriminate.
    + rewrite Hn. apply Forall_app. split; [assumption|]. constructor; [lia|constructor].
  - split; [discriminate|]. rewrite Hn. now apply Forall_removeNth.
Qed.

End Handlers.

(** X11. What a verification that succeeded has stored, when the store
    took both writes, brings the session back on the next load: the page
    mounts with that token and that proxy setting; and what a logout leaves
    mounts logged out, the proxy off. *)
Theorem X11_reload_restores_the_session :
  forall ed ed' w tok (proxy : bool) s payload,
    SlackService.testConnection (App.fetch w)
      (SlackService.new tok (if proxy then Some App.DEFAULT_PROXY else None)) = Return payload ->
    App.write w (App.localStorage s) "slack_token" tok = None ->
    App.write w (Storage.put (App.localStorage s) "slack_token" tok)
              "slack_use_proxy" (App.boolToString proxy) = None ->
    App.token (App.mount ed' (App.localStorage (App.handleConnectResumed ed w tok proxy s)))
    = tok
    /\ App.useProxy (App.mount ed' (App.localStorage (App.handleConnectResumed ed w tok proxy s)))
       = proxy
    /\ App.token (App.mount ed' (App.localStorage (App.handleLogout ed s))) = ""
    /\ App.useProxy (App.mount ed' (App.localStorage (App.handleLogout ed s))) = false.
Proof.
  intros ed ed' w tok proxy s payload Htest Hw1 Hw2.
  destruct (connect_success_writes_both ed w tok proxy s payload Htest Hw1 Hw2)
    as (_ & Htok & Hflag).
  destruct (logout_removes_both ed s) as [Hno1 Hno2].
  unfold App.mount.
  repeat match goal with
         | |- context [App.token (App.afterRender ?e None ?x)] =>
             rewrite (proj1 (afterRender_frame e None x))
         | |- context [App.useProxy (App.afterRender ?e None ?x)] =>
             rewrite (proj1 (proj2 (afterRender_frame e None x)))
         end.
  rewrite !initial_token. unfold App.persistedToken, App.initial. cbn [App.useProxy].
  rewrite Htok, Hflag, Hno1, Hno2, boolToString_true. auto.
Qed.

Lemma X11_witness :
  App.token (App.mount App.Second
               (App.localStorage
                  (App.handleConnectResumed App.First App.mocked "xoxb-1" true
                                            (App.mount App.First [])))) = "xoxb-1"
  /\ App.useProxy (App.mount App.Second
                     (App.localStorage
                        (App.handleConnectResumed App.First App.mocked "xoxb-1" true
                                                  (App.mount App.First [])))) = true.
Proof.
  destruct (X11_reload_restores_the_session App.First App.Second App.mocked "xoxb-1" true
              (App.mount App.First []) _ eq_refl eq_refl eq_refl) as (H1 & H2 & _).
  split; [exact H1 | exact H2].
Defined.

(** X12. A token that is empty once trimmed starts no verification: the
    click leaves nothing in flight, writes nothing, and in the second copy
    alone says that the token field is empty. *)
Theorem X12_blank_token_starts_nothing :
  forall ed s targetToken forceProxy,
    trim targetToken = "" ->
    exists s',
      App.step ed s (App.Connect targetToken forceProxy) = Some s'
      /\ App.inflight s' = App.inflight s
      /\ App.localStorage s' = App.localStorage s
      /\ App.isVerifying s' = App.isVerifying s
      /\ App.errorMessage s'
         = match ed with
           | App.First => App.errorMessage s
           | App.Second => Some "Token field is empty."
           end.
Proof.
  intros ed s targetToken forceProxy Hblank.
  exists (App.handleConnect ed targetToken forceProxy s). split.
  - apply step_without_effects; [reflexivity|..];
      unfold App.handleConnect; rewrite Hblank; destruct ed; reflexivity.
  - unfold App.handleConnect. rewrite Hblank. destruct ed; repeat split.
Qed.

Lemma X12_witness :
  exists s',
    App.step App.Second (App.mount App.Second []) (App.Connect "   " None) = Some s'
    /\ App.inflight s' = []
    /\ App.errorMessage s' = Some "Token field is empty.".
Proof.
  destruct (X12_blank_token_starts_nothing App.Second (App.mount App.Second []) "   " None
              eq_refl) as (s' & Hstep & Hin & _ & _ & Herr).
  exists s'. split; [exact Hstep|]. split; [exact Hin | exact Herr].
Defined.

(** X13. A click on Send does nothing at all without a selected channel,
    with an empty message or with no token; otherwise it shows the page busy
    and puts exactly one send in flight, for the selected channel's [id] and
    the message as typed, through the service of the current token and proxy
    setting. *)
Theorem X13_send_guard :
  forall ed s,
    (App.noChannel s = true \/ App.message s = "" \/ App.token s = "" ->
     App.step ed s App.Send = Some s)
    /\ (App.noChannel s = false -> App.message s <> "" -> App.token s <> "" ->
        exists channel id,
          App.selectedChannel s = Some channel
          /\ get channel "id" = Return id
          /\ App.step ed s App.Send
             = Some (App.suspend
                       (App.Sending
                          (SlackService.new (App.token s)
                             (if App.useProxy s then Some App.DEFAULT_PROXY else None))
                          id (App.message s))
                       (App.setStatus App.LOADING s))).
Proof.
  intros ed s. split.
  - intros Hguard.
    assert (App.handleSendMessage s = s) as Hsame.
    { unfold App.handleSendMessage, App.service, App.noChannel in *.
      destruct (App.selectedChannel s) as [channel|]; [|reflexivity].
      destruct (App.token s =? "") eqn:Et; cbn [negb]; [reflexivity|].
      destruct Hguard as [Hc|[Hm|Ht]].
      - apply negb_true_iff in Hc. now rewrite Hc.
      - rewrite Hm. cbn. now rewrite andb_false_r.
      - rewrite Ht in Et. discriminate. }
    apply step_without_effects; [cbn [App.handle]; now rewrite Hsame | reflexivity..].
  - intros Hc Hm Ht. unfold App.noChannel in Hc.
    destruct (App.selectedChannel s) as [channel|] eqn:Es; [|discriminate].
    apply negb_false_iff in Hc.
    destruct (truthy_has_fields channel "id" Hc) as [id Hid].
    exists channel, id. split; [reflexivity|]. split; [exact Hid|].
    assert (App.handleSendMessage s
            = App.suspend
                (App.Sending
                   (SlackService.new (App.token s)
                      (if App.useProxy s then Some App.DEFAULT_PROXY else None))
                   id (App.message s))
                (App.setStatus App.LOADING s)) as Hsend.
    { unfold App.handleSendMessage, App.service. rewrite Es.
      apply String.eqb_neq in Ht. rewrite Ht. cbn [negb].
      apply String.eqb_neq in Hm. rewrite Hc, Hm. cbn [negb andb]. now rewrite Hid. }
    apply step_without_effects; [cbn [App.handle]; now rewrite Hsend | reflexivity..].
Qed.

(** X14. A send that fails keeps the draft: the message, the channel list,
    the selection, the toast and the timers stay as they are; the page shows
    an error, the CORS hint for a blocked transport and the error's own
    message otherwise, and leaves the error type as it was. *)
Theorem X14_failed_send_keeps_the_draft :
  forall ed w s i svc cid text err s',
    nth_error (App.inflight s) i = Some (App.Sending svc cid text) ->
    SlackService.sendMessage (App.fetch w) svc cid text = Throw err ->
    App.step ed s (App.Resume i w) = Some s' ->
    App.message s' = App.message s
    /\ App.channels s' = App.channels s
    /\ App.selectedChannel s' = App.selectedChannel s
    /\ App.successToast s' = App.successToast s
    /\ App.timers s' = App.timers s
    /\ App.status s' = App.ERROR
    /\ App.errorType s' = App.errorType s
    /\ App.errorMessage s'
       = Some (if Js.message err =? "CORS_ERROR"
               then "Send blocked by CORS. Enable Proxy in settings."
               else Js.message err).
Proof.
  intros ed w s i svc cid text err s' Hi Hsend Hstep.
  rewrite (step_without_effects ed s (App.Resume i w)
             (App.handleSendMessageResumed ed w svc cid text
                (App.withInflight (App.removeNth i (App.inflight s)) s))) in Hstep.
  - injection Hstep as <-. unfold App.handleSendMessageResumed. rewrite Hsend.
    repeat split.
  - cbn [App.handle]. now rewrite Hi.
  - unfold App.handleSendMessageResumed. now rewrite Hsend.
  - unfold App.handleSendMessageResumed. now rewrite Hsend.
  - unfold App.handleSendMessageResumed. now rewrite Hsend.
Qed.

Lemma X14_witness :
  let down := {| App.fetch := fun _ => SlackService.Rejects "Failed to fetch";
                 App.refineMessage := fun m _ => Return m;
                 App.write := fun _ _ _ => None |} in
  exists s s',
    App.run App.First (App.mount App.First [])
            [App.Connect "xoxb-1" None; App.Resume 0 App.mocked; App.Resume 0 App.mocked;
             App.PickChannel 1; App.TypeMessage "hello"; App.Send] = Some s
    /\ App.step App.First s (App.Resume 0 down) = Some s'
    /\ App.message s' = "hello"
    /\ App.errorMessage s' = Some "Send blocked by CORS. Enable Proxy in settings.".
Proof.
  intros down. eexists. eexists.
  split; [vm_compute; reflexivity|].
  match goal with |- App.step _ ?s0 _ = _ /\ _ => set (s := s0) end.
  split; [vm_compute; reflexivity|].
  match goal with |- App.message ?s0 = _ /\ _ => set (s' := s0) end.
  destruct (X14_failed_send_keeps_the_draft App.First down s 0 _ _ _ _ s'
              eq_refl eq_refl eq_refl) as (Hm & _ & _ & _ & _ & _ & _ & He).
  split; [exact Hm | exact He].
Defined.

(** X15. When a channel listing comes back, a failure leaves the channel
    list as it was and shows an error of the outcome's class, and a success
    replaces the list by what was fetched and clears the error; either way
    the selected channel and the message are left alone. *)
Theorem X15_refresh_outcome :
  forall ed w s i svc s',
    nth_error (App.inflight s) i = Some (App.Fetching svc) ->
    App.step ed s (App.Resume i w) = Some s' ->
    App.selectedChannel s' = App.selectedChannel s
    /\ App.message s' = App.message s
    /\ match SlackService.fetchChannels (App.fetch w) svc with
       | Return fetched =>
           App.channels s' = fetched /\ App.status s' = App.SUCCESS
           /\ App.errorMessage s' = None /\ App.errorType s' = None
       | Throw err =>
           App.channels s' = App.channels s /\ App.status s' = App.ERROR
           /\ App.errorMessage s' <> None
           /\ App.errorType s'
              = Some (if Js.message err =? "CORS_ERROR" then App.CORS else App.AUTH)
       end.
Proof.
  intros ed w s i svc s' Hi Hstep.
  rewrite (step_without_effects ed s (App.Resume i w)
             (App.fetchChannelsResumed ed w svc
                (App.withInflight (App.removeNth i (App.inflight s)) s))) in Hstep.
  - injection Hstep as <-. unfold App.fetchChannelsResumed.
    destruct (SlackService.fetchChannels (App.fetch w) svc) as [fetched|err].
    + repeat split.
    + destruct (Js.message err =? "CORS_ERROR"); repeat split; discriminate.
  - cbn [App.handle]. now rewrite Hi.
  - unfold App.fetchChannelsResumed.
    destruct (SlackService.fetchChannels _ _) as [v|err]; [reflexivity|].
    now destruct (Js.message err =? "CORS_ERROR").
  - unfold App.fetchChannelsResumed.
    destruct (SlackService.fetchChannels _ _) as [v|err]; [reflexivity|].
    now destruct (Js.message err =? "CORS_ERROR").
  - unfold App.fetchChannelsResumed.
    destruct (SlackService.fetchChannels _ _) as [v|err]; [reflexivity|].
    now destruct (Js.message err =? "CORS_ERROR").
Qed.

Lemma X15_witness :
  exists s s',
    App.run App.Second (App.mount App.Second [])
            [App.Connect "xoxb-1" None; App.Resume 0 App.mocked] = Some s
    /\ App.step App.Second s (App.Resume 0 App.mocked) = Some s'
    /\ App.channels s = Arr []
    /\ App.channels s' = App.twoChannels.
Proof.
  eexists. eexists.
  split; [vm_compute; reflexivity|].
  match goal with |- App.step _ ?s0 _ = _ /\ _ => set (s := s0) end.
  split; [vm_compute; reflexivity|].
  split; [reflexivity|].
  match goal with |- App.channels ?s0 = _ => set (s' := s0) end.
  pose proof (X15_refresh_outcome App.Second App.mocked s 0 _ s' eq_refl eq_refl)
    as (_ & _ & H).
  exact (proj1 H).
Defined.

(** X16. In every state the page reaches the toast cannot stick: while it
    is raised a timer that clears it is pending, and every pending timer is
    due within 3000 ms. *)
Theorem X16_toast_is_backed_by_a_timer :
  forall ed st evs s,
    App.run ed (App.mount ed st) evs = Some s ->
    (App.successToast s = true -> App.timers s <> [])
    /\ (forall due, In due (App.timers s) -> due <= App.now s + 3000).
Proof.
  intros ed st evs s Hrun.
  assert (App.toastBacked s) as [Hback Hdue].
  { assert (App.toastBacked (App.mount ed st)) as Hstart.
    { unfold App.toastBacked, App.mount.
      destruct (afterRender_clock ed None (App.initial st)) as (Ea & Eb & Ec).
      rewrite Ea, Eb. split; [discriminate | constructor]. }
    revert Hstart Hrun. generalize (App.mount ed st).
    induction evs as [|ev evs IH]; intros s0 Hinv Hrun; cbn in Hrun.
    - now injection Hrun as <-.
    - destruct (App.step ed s0 ev) as [s1|] eqn:Hstep; [|discriminate].
      exact (IH s1 (step_toastBacked ed s0 ev s1 Hinv Hstep) Hrun). }
  split; [exact Hback|].
  rewrite Forall_forall in Hdue. exact Hdue.
Qed.

Lemma X16_witness :
  exists s,
    App.run App.First (App.mount App.First [])
            [App.Connect "xoxb-1" None; App.Resume 0 App.mocked; App.Resume 0 App.mocked;
             App.PickChannel 0; App.TypeMessage "hello"; App.Send; App.Elapse 40;
             App.Resume 0 App.mocked; App.Elapse 1000] = Some s
    /\ App.successToast s = true
    /\ App.timers s <> [].
Proof.
  eexists. split; [vm_compute; reflexivity|]. split; [reflexivity|].
  match goal with
  | |- App.timers ?s0 <> [] =>
      apply (proj1 (X16_toast_is_backed_by_a_timer App.First []
                      [App.Connect "xoxb-1" None; App.Resume 0 App.mocked;
                       App.Resume 0 App.mocked;
                       App.PickChannel 0; App.TypeMessage "hello"; App.Send; App.Elapse 40;
                       App.Resume 0 App.mocked; App.Elapse 1000] s0
                      ltac:(vm_compute; reflexivity)))
  end.
  reflexivity.
Defined.

(** X17. A connect forced through the proxy asks [auth.test] at the proxy
    prefix followed by the whole canonical URL, whatever the current proxy
    setting; when that call is accepted and the store takes the two writes
    the page holds the trimmed token with the proxy on, and both are
    persisted. *)
Theorem X17_connect_forced_through_the_proxy :
  forall ed w s targetToken response payload flag,
    trim targetToken <> "" ->
    App.fetch w
      {| SlackService.url := "https://corsproxy.io/?https://slack.com/api/auth.test";
         SlackService.init :=
           {| SlackService.method := None;
              SlackService.body := None;
              SlackService.headers :=
                [("Authorization", "Bearer " ++ trim targetToken);
                 ("Content-Type", "application/json; charset=utf-8")] |} |}
    = SlackService.Resolves response ->
    SlackService.ok response = true ->
    SlackService.json response = Return payload ->
    get payload "ok" = Return flag ->
    truthy flag = true ->
    App.write w (App.localStorage s) "slack_token" (trim targetToken) = None ->
    App.write w (Storage.put (App.localStorage s) "slack_token" (trim targetToken))
              "slack_use_proxy" "true" = None ->
    exists s',
      App.run ed s [App.Connect targetToken (Some true);
                    App.Resume (List.length (App.inflight s)) w] = Some s'
      /\ App.token s' = trim targetToken
      /\ App.useProxy s' = true
      /\ Storage.getItem (App.localStorage s') "slack_token" = Some (trim targetToken)
      /\ Storage.getItem (App.localStorage s') "slack_use_proxy" = Some "true"
      /\ App.isVerifying s' = false
      /\ App.errorMessage s' = None.
Proof.
  intros ed w s targetToken response payload flag Hne Hfetch Hok Hjson Hget Htruthy Hw1 Hw2.
  set (clean := trim targetToken) in *.
  assert (SlackService.testConnection (App.fetch w)
            (SlackService.new clean (Some App.DEFAULT_PROXY)) = Return payload) as Htest.
  { unfold SlackService.testConnection, SlackService.request, SlackService.requestAttempt.
    replace (SlackService.fetchCall (SlackService.new clean (Some App.DEFAULT_PROXY))
               "auth.test" SlackService.noOptions)
      with {| SlackService.url := "https://corsproxy.io/?https://slack.com/api/auth.test";
              SlackService.init :=
                {| SlackService.method := None;
                   SlackService.body := None;
                   SlackService.headers :=
                     [("Authorization", "Bearer " ++ clean);
                      ("Content-Type", "application/json; charset=utf-8")] |} |}.
    - rewrite Hfetch, Hok. cbn [negb]. rewrite Hjson. cbn [bind]. rewrite Hget. cbn [bind].
      now rewrite Htruthy.
    - unfold SlackService.fetchCall, SlackService.new, SlackService.requestHeaders.
      cbn. subst clean. now rewrite trim_idempotent. }
  set (s1 := App.handleConnect ed targetToken (Some true) s).
  assert (s1 = App.suspend (App.Verifying clean true)
                 (App.setErrorType None (App.setErrorMessage None (App.setIsVerifying true s))))
    as Hs1.
  { subst s1. unfold App.handleConnect. fold clean.
    apply String.eqb_neq in Hne. now rewrite Hne. }
  assert (App.step ed s (App.Connect targetToken (Some true)) = Some s1) as Hstep1.
  { apply step_without_effects; [reflexivity|..]; rewrite Hs1; reflexivity. }
  set (s2 := App.handleConnectResumed ed w clean true
               (App.withInflight (App.removeNth (List.length (App.inflight s)) (App.inflight s1))
                                 s1)).
  assert (App.handle ed (App.Resume (List.length (App.inflight s)) w) s1 = Some s2) as Hh2.
  { cbn [App.handle]. rewrite Hs1 at 1. cbn [App.inflight App.suspend App.withInflight].
    now rewrite nth_error_last. }
  exists (App.afterRender ed (Some s1) s2). split.
  - cbn [App.run]. rewrite Hstep1. unfold App.step. now rewrite Hh2.
  - destruct (afterRender_frame ed (Some s1) s2) as (Et & Ep & _ & _ & _ & _ & Em & _ & Ev & _).
    rewrite Et, Ep, Em, Ev, afterRender_localStorage.
    assert (App.localStorage
              (App.withInflight (App.removeNth (List.length (App.inflight s))
                                               (App.inflight s1)) s1)
            = App.localStorage s) as Hst by (rewrite Hs1; reflexivity).
    destruct (connect_success_writes_both ed w clean true
                (App.withInflight (App.removeNth (List.length (App.inflight s))
                                                 (App.inflight s1)) s1) payload Htest)
      as (Heq & Hk1 & Hk2); [now rewrite Hst | now rewrite Hst |].
    fold s2 in Heq, Hk1, Hk2. rewrite Hk1, Hk2, Heq.
    destruct ed; repeat split.
Qed.

Lemma X17_witness :
  exists s',
    App.run App.Second (App.mount App.Second [])
            [App.Connect " xoxb-1" (Some true); App.Resume 0 App.mocked] = Some s'
    /\ App.token s' = "xoxb-1"
    /\ App.useProxy s' = true.
Proof.
  destruct (X17_connect_forced_through_the_proxy App.Second App.mocked
              (App.mount App.Second []) " xoxb-1" _ _ (Bool true)
              ltac:(discriminate) eq_refl eq_refl eq_refl eq_refl eq_refl
              eq_refl eq_refl)
    as (s' & Hrun & Ht & Hp & _).
  exists s'. split; [exact Hrun|]. split; [exact Ht | exact Hp].
Defined.

(** X18. Refinement cannot fail the page.  A click on a tone with an empty
    message does nothing; when the refinement comes back the page stops
    showing it busy, takes the refined text as the message, or keeps the
    message if [refineMessage] raised, and touches neither the status nor
    the error, the channels or the store. *)
Theorem X18_refinement_is_absorbed :
  forall ed s,
    (forall tone, App.message s = "" -> App.step ed s (App.Refine tone) = Some s)
    /\ (forall w i msg tone s',
          nth_error (App.inflight s) i = Some (App.Refining msg tone) ->
          App.step ed s (App.Resume i w) = Some s' ->
          App.isRefining s' = false
          /\ App.message s'
             = match App.refineMessage w msg (Some tone) with
               | Return refined => refined
               | Throw _ => App.message s
               end
          /\ App.status s' = App.status s
          /\ App.errorMessage s' = App.errorMessage s
          /\ App.errorType s' = App.errorType s
          /\ App.channels s' = App.channels s
          /\ App.localStorage s' = App.localStorage s).
Proof.
  intros ed s. split.
  - intros tone Hempty. apply step_without_effects; [|reflexivity..].
    cbn [App.handle]. unfold App.refineWithAI. now rewrite Hempty.
  - intros w i msg tone s' Hi Hstep.
    rewrite (step_without_effects ed s (App.Resume i w)
               (App.refineWithAIResumed w msg tone
                  (App.withInflight (App.removeNth i (App.inflight s)) s))) in Hstep.
    + injection Hstep as <-. unfold App.refineWithAIResumed.
      destruct (App.refineMessage w msg (Some tone)); repeat split.
    + cbn [App.handle]. now rewrite Hi.
    + unfold App.refineWithAIResumed. now destruct (App.refineMessage w msg (Some tone)).
    + unfold App.refineWithAIResumed. now destruct (App.refineMessage w msg (Some tone)).
    + unfold App.refineWithAIResumed. now destruct (App.refineMessage w msg (Some tone)).
Qed.

Lemma Bool_eqb_false_r b : Bool.eqb b false = negb b.
Proof. destruct b; reflexivity. Qed.

(** X19. A verification that succeeds, its two writes taken by the store,
    starts a channel refresh of its own accord exactly when it changes the
    token or closes the settings: then
    one listing for the new token and proxy setting goes in flight and the
    page shows busy; otherwise (the same token again, settings closed)
    nothing is fetched. *)
Theorem X19_connect_refreshes_the_channels :
  forall ed w s i tok (proxy : bool) payload s',
    nth_error (App.inflight s) i = Some (App.Verifying tok proxy) ->
    SlackService.testConnection (App.fetch w)
      (SlackService.new tok (if proxy then Some App.DEFAULT_PROXY else None)) = Return payload ->
    App.write w (App.localStorage s) "slack_token" tok = None ->
    App.write w (Storage.put (App.localStorage s) "slack_token" tok)
              "slack_use_proxy" (App.boolToString proxy) = None ->
    tok <> "" ->
    App.step ed s (App.Resume i w) = Some s' ->
    if (negb (App.token s =? tok) || App.showSettings s)%bool
    then App.inflight s'
         = (App.removeNth i (App.inflight s)
              ++ [App.Fetching
                    (SlackService.new tok (if proxy then Some App.DEFAULT_PROXY else None))])%list
         /\ App.status s' = App.LOADING
    else App.inflight s' = App.removeNth i (App.inflight s)
         /\ App.status s' = App.status s.
Proof.
  intros ed w s i tok proxy payload s' Hi Htest Hw1 Hw2 Hne Hstep.
  unfold App.step in Hstep. cbn [App.handle] in Hstep. rewrite Hi in Hstep.
  cbn [option_map App.resume] in Hstep. injection Hstep as <-.
  set (s1 := App.handleConnectResumed ed w tok proxy
               (App.withInflight (App.removeNth i (App.inflight s)) s)).
  assert (App.token s1 = tok /\ App.useProxy s1 = proxy /\ App.showSettings s1 = false
          /\ App.inflight s1 = App.removeNth i (App.inflight s)
          /\ App.status s1 = App.status s) as (Ht & Hp & Hs & Hin & Hst).
  { subst s1.
    rewrite (proj1 (connect_success_writes_both ed w tok proxy
                      (App.withInflight (App.removeNth i (App.inflight s)) s)
                      payload Htest Hw1 Hw2)).
    destruct ed; repeat split. }
  apply String.eqb_neq in Hne.
  unfold App.afterRender. rewrite Ht, Hp, Hs, Hne, Bool_eqb_false_r, negb_involutive.
  cbn [negb andb]. rewrite !andb_true_r.
  destruct (negb (App.token s =? tok) || App.showSettings s)%bool eqn:Ec.
  - unfold App.fetchChannels, App.service.
    destruct ed;
      repeat match goal with
             | |- context [if ?c then App.setInputToken ?a ?b else ?b] => destruct c
             | |- context [if ?c then App.setDiscoveredTokens ?a ?b else ?b] => destruct c
             end;
      cbn [App.token App.useProxy App.setInputToken App.setDiscoveredTokens];
      rewrite ?Ht, ?Hp, Hne; cbn [negb App.suspend App.inflight App.status App.withInflight
                                   App.setStatus App.setInputToken App.setDiscoveredTokens];
      rewrite ?Hin; split; reflexivity.
  - destruct ed;
      repeat match goal with
             | |- context [if ?c then App.setInputToken ?a ?b else ?b] => destruct c
             | |- context [if ?c then App.setDiscoveredTokens ?a ?b else ?b] => destruct c
             end;
      cbn [App.inflight App.status App.setInputToken App.setDiscoveredTokens];
      rewrite ?Hin, ?Hst; split; reflexivity.
Qed.

Lemma X19_witness :
  exists s s',
    App.run App.Second
            (App.mount App.Second [("slack_token", "xoxb-1"); ("slack_use_proxy", "false")])
            [App.Connect "xoxb-1" (Some true)] = Some s
    /\ App.step App.Second s (App.Resume 1 App.mocked) = Some s'
    /\ App.inflight s' = [App.Fetching (SlackService.new "xoxb-1" None)]
    /\ App.useProxy s' = true.
Proof.
  eexists. eexists.
  split; [vm_compute; reflexivity|].
  match goal with |- App.step _ ?s0 _ = _ /\ _ => set (s := s0) end.
  split; [vm_compute; reflexivity|].
  match goal with |- App.inflight ?s0 = _ /\ _ => set (s' := s0) end.
  split; [|reflexivity].
  pose proof (X19_connect_refreshes_the_channels App.Second App.mocked s 1 "xoxb-1" true _ s'
                eq_refl eq_refl eq_refl eq_refl ltac:(discriminate) eq_refl) as H.
  exact (proj1 H).
Defined.

(** X20. The pattern of the first copy, [val.match(/xox[bap]-[a-zA-Z0-9-]+/)]:
    it yields [m] exactly when [m] is the leftmost token-shaped text in the
    value, taken as long as it goes, and it yields nothing exactly when no
    token-shaped text occurs in the value. *)
Theorem X20_pattern_match_is_leftmost_longest :
  forall v,
    (forall m, TokenScan.regexMatch v = Some m <-> TokenShape.Matched v m)
    /\ (TokenScan.regexMatch v = None <-> TokenShape.Absent v).
Proof.
  intros v. split.
  - intros m. split; [apply regexMatch_Matched|].
    intros Hm. destruct (TokenScan.regexMatch v) as [m'|] eqn:E.
    + f_equal. exact (Matched_unique v m' m (regexMatch_Matched v m' E) Hm).
    + exfalso. exact (Matched_not_Absent v m Hm (regexMatch_Absent v E)).
  - split; [apply regexMatch_Absent|].
    intros Ha. destruct (TokenScan.regexMatch v) as [m'|] eqn:E; [|reflexivity].
    exfalso. exact (Matched_not_Absent v m' (regexMatch_Matched v m' E) Ha).
Qed.

(** X21. A page without a token asks the network for nothing: Refresh and
    Send leave the state as it is; and a logout leaves the page without a
    token, with no channels and no selection, and puts nothing in flight. *)
Theorem X21_logged_out_page_is_silent :
  forall ed s,
    (App.token s = "" ->
     App.step ed s App.Refresh = Some s /\ App.step ed s App.Send = Some s)
    /\ (forall s',
          App.step ed s App.Logout = Some s' ->
          App.token s' = "" /\ App.channels s' = Arr [] /\ App.selectedChannel s' = None
          /\ App.inflight s' = App.inflight s).
Proof.
  intros ed s. split.
  - intros Ht. split.
    + apply step_without_effects; [|reflexivity..].
      cbn [App.handle]. unfold App.fetchChannels, App.service. now rewrite Ht.
    + apply step_without_effects; [|reflexivity..].
      cbn [App.handle]. unfold App.handleSendMessage, App.service. rewrite Ht. cbn.
      now destruct (App.selectedChannel s).
  - intros s' Hstep. unfold App.step in Hstep. cbn [App.handle option_map] in Hstep.
    injection Hstep as <-.
    destruct (afterRender_frame ed (Some s) (App.handleLogout ed s))
      as (Et & _ & _ & _ & Ec & Es & _).
    rewrite Et, Ec, Es.
    assert (App.inflight (App.afterRender ed (Some s) (App.handleLogout ed s))
            = App.inflight s) as ->.
    { unfold App.afterRender, App.fetchChannels, App.handleLogout.
      destruct ed; cbn [App.token App.setToken App.setInputToken App.setChannels
                        App.setSelectedChannel App.setShowSettings App.setErrorType
                        App.setErrorMessage App.withStorage];
        cbn [String.eqb negb andb]; rewrite !andb_false_r;
        repeat match goal with
               | |- context [if ?c then _ else _] => destruct c
               end; reflexivity. }
    unfold App.handleLogout. destruct ed; repeat split.
Qed.

(** X22. A write the store refuses after a verification that succeeded
    lands in the [catch] block of [handleConnect]: the page sets no token
    and no proxy setting, stops showing the verification, and shows the
    refusal as an error of class AUTH (CORS if its message is the text
    ['CORS_ERROR']); the store keeps what was written before the refusal,
    the token when it is the flag that is refused. *)
Theorem X22_refused_write_fails_the_connect :
  forall ed w tok (proxy : bool) s payload refusal,
    SlackService.testConnection (App.fetch w)
      (SlackService.new tok (if proxy then Some App.DEFAULT_PROXY else None)) = Return payload ->
    (App.write w (App.localStorage s) "slack_token" tok = Some refusal
     \/ (App.write w (App.localStorage s) "slack_token" tok = None
         /\ App.write w (Storage.put (App.localStorage s) "slack_token" tok)
                      "slack_use_proxy" (App.boolToString proxy) = Some refusal)) ->
    let s' := App.handleConnectResumed ed w tok proxy s in
    App.token s' = App.token s
    /\ App.useProxy s' = App.useProxy s
    /\ App.showSettings s' = App.showSettings s
    /\ App.isVerifying s' = false
    /\ App.errorType s'
       = Some (if Js.message refusal =? "CORS_ERROR" then App.CORS else App.AUTH)
    /\ App.errorMessage s'
       = Some (if Js.message refusal =? "CORS_ERROR" then App.corsTextConnect ed
               else App.authTextConnect ed (Js.message refusal))
    /\ App.localStorage s'
       = match App.write w (App.localStorage s) "slack_token" tok with
         | Some _ => App.localStorage s
         | None => Storage.put (App.localStorage s) "slack_token" tok
         end.
Proof.
  intros ed w tok proxy s payload refusal Htest Hrefused. cbv zeta.
  unfold App.handleConnectResumed, Storage.setItem. rewrite Htest.
  destruct Hrefused as [H1|[H1 H2]]; rewrite H1.
  - unfold App.connectFailed.
    destruct (Js.message refusal =? "CORS_ERROR"); repeat split.
  - cbn [App.localStorage App.withStorage]. rewrite H2. unfold App.connectFailed.
    destruct (Js.message refusal =? "CORS_ERROR"); repeat split.
Qed.

Lemma X22_witness :
  let s' := App.handleConnectResumed App.First (App.cramped 30) "xoxb-1" false
              (App.mount App.First []) in
  App.token s' = ""
  /\ App.errorMessage s' = Some "Slack API Error: The quota has been exceeded."
  /\ App.localStorage s' = [("slack_token", "xoxb-1")].
Proof.
  cbv zeta.
  destruct (X22_refused_write_fails_the_connect App.First (App.cramped 30) "xoxb-1" false
              (App.mount App.First []) _
              (mkError (OtherError "QuotaExceededError") "The quota has been exceeded.")
              eq_refl (or_intror (conj eq_refl eq_refl)))
    as (Ht & _ & _ & _ & _ & Hm & Hst).
  split; [exact Ht|]. split; [exact Hm | exact Hst].
Defined.
